(** * ruuvitag-form: a shallow embedding of [src/ruuvitag/form/__init__.py]

    The program is a linear pipeline: [parse_arguments] turns the argument
    vector into an [Arguments] object, [fetch_tags] asks a ruuvitag-hark
    server for its tags, and [run] renders them for waybar or for influxdb.

    Conventions of the embedding.
    - Python [str] is [string]; the text domain is ASCII (a character above
      127 is kept as it is by [upper] and [lower]).
    - Python [float] is an IEEE 754 binary64 number, [spec_float] with
      precision 53 and maximal exponent 1024, and every operation on it is
      exact integer arithmetic followed by one rounding to nearest even.
    - A Python [dict] is an association list in insertion order, updated
      through [Dict.set], so that iteration order is the order of first
      insertion.
    - Effects are explicit: a computation of type [M A] threads what the
      process has written to standard output and standard error and the
      URLs it has requested, and ends in a value or in a raised exception
      ([SystemExit] is one of them, as in Python).
    - The network and the environment are the [environ] record: whether
      POSIXLY_CORRECT is set, and for each URL either a transport error or
      the body the server sends, given as the JSON text already parsed into
      its syntax tree.
    - The library functions the program calls ([getopt.gnu_getopt],
      [os.path.basename], [format], [str], [json.dump],
      [datetime.fromisoformat], [datetime.timestamp]) are embedded from
      their CPython 3.8 behaviour, the release current when the program was
      written. *)

From Stdlib Require Import ZArith List String Ascii Bool Lia.
From Stdlib Require Import Numbers.DecimalString.
From Stdlib Require Numbers.DecimalPos.
From Stdlib Require Import Floats.SpecFloat.
Import ListNotations.

Set Warnings "-register-all".
Open Scope string_scope.
Open Scope Z_scope.

(** ** Strings *)

Module PyStr.

(** The double quote character, which a string literal cannot hold. *)
Definition dquote : string := String (ascii_of_nat 34) EmptyString.
(** The line feed. *)
Definition nl : string := String (ascii_of_nat 10) EmptyString.

Definition code (c : ascii) : Z := Z.of_nat (nat_of_ascii c).

(** [s.startswith(p)] *)
Definition startswith (s p : string) : bool := String.prefix p s.

(** [s.endswith(p)] *)
Definition endswith (s p : string) : bool :=
  let n := String.length s in
  let k := String.length p in
  (k <=? n)%nat && String.eqb (String.substring (n - k) k s) p.

(** [s[n:]] *)
Fixpoint drop (n : nat) (s : string) : string :=
  match n, s with
  | O, _ => s
  | S n', String _ s' => drop n' s'
  | S _, EmptyString => EmptyString
  end.

(** [s[:n]] *)
Fixpoint take (n : nat) (s : string) : string :=
  match n, s with
  | S n', String c s' => String c (take n' s')
  | _, _ => EmptyString
  end.

(** [s.find(c)] for a one-character [c]: [None] stands for -1. *)
Fixpoint find (c : ascii) (s : string) : option nat :=
  match s with
  | EmptyString => None
  | String d s' =>
      if Ascii.eqb c d then Some O
      else match find c s' with
           | Some i => Some (S i)
           | None => None
           end
  end.

(** [s.rfind(c)] *)
Fixpoint rfind (c : ascii) (s : string) : option nat :=
  match s with
  | EmptyString => None
  | String d s' =>
      match rfind c s' with
      | Some i => Some (S i)
      | None => if Ascii.eqb c d then Some O else None
      end
  end.

Definition upper_char (c : ascii) : ascii :=
  let n := nat_of_ascii c in
  if ((97 <=? n) && (n <=? 122))%nat then ascii_of_nat (n - 32) else c.

Definition lower_char (c : ascii) : ascii :=
  let n := nat_of_ascii c in
  if ((65 <=? n) && (n <=? 90))%nat then ascii_of_nat (n + 32) else c.

Fixpoint map (f : ascii -> ascii) (s : string) : string :=
  match s with
  | EmptyString => EmptyString
  | String c s' => String (f c) (map f s')
  end.

(** [s.upper()] and [s.lower()] *)
Definition upper : string -> string := map upper_char.
Definition lower : string -> string := map lower_char.

(** [sep.join(l)] *)
Fixpoint join (sep : string) (l : list string) : string :=
  match l with
  | [] => ""
  | [x] => x
  | x :: rest => x ++ sep ++ join sep rest
  end.

(** [c in s] for a one-character [c] *)
Definition contains (c : ascii) (s : string) : bool :=
  match find c s with Some _ => true | None => false end.

(** [c * n] *)
Fixpoint repeat (c : ascii) (n : nat) : string :=
  match n with
  | O => ""
  | S n' => String c (repeat c n')
  end.

(** [os.path.basename(p)]: what follows the last slash. *)
Definition basename (p : string) : string :=
  match rfind "/"%char p with
  | Some i => drop (S i) p
  | None => p
  end.

(** [str(z)] for an [int] *)
Definition of_Z (z : Z) : string := NilZero.string_of_int (Z.to_int z).

(** ["%02d" % z] for [0 <= z] *)
Definition two_digits (z : Z) : string :=
  if z <? 10 then "0" ++ of_Z z else of_Z z.

Definition hex_digit (z : Z) : ascii :=
  if z <? 10 then ascii_of_nat (Z.to_nat (48 + z))
  else ascii_of_nat (Z.to_nat (87 + z)).

(** ["%02x" % z] for [0 <= z < 256] *)
Definition hex2 (z : Z) : string :=
  String (hex_digit (z / 16)) (String (hex_digit (z mod 16)) "").

Definition is_digit (c : ascii) : bool :=
  let n := nat_of_ascii c in ((48 <=? n) && (n <=? 57))%nat.

(** The value of a string of decimal digits, [None] when a character is
    not a digit or the string is empty. *)
Fixpoint digits_value (acc : Z) (s : string) : option Z :=
  match s with
  | EmptyString => Some acc
  | String c s' =>
      if is_digit c then digits_value (10 * acc + (code c - 48)) s'
      else None
  end.

Definition parse_digits (s : string) : option Z :=
  match s with
  | EmptyString => None
  | _ => digits_value 0 s
  end.

End PyStr.

(** ** Binary64 floating point *)

Module Float.

Definition prec : Z := 53.
Definition emax : Z := 1024.

(** [float(z)] for an [int], when it does not overflow. *)
Definition of_Z (z : Z) : spec_float := binary_normalize prec emax z 0 false.

(** The binary64 number nearest to the quotient of two positive integers
    (ties to even): Python's true division of two [int] and its reading
    of a decimal literal round once, from the exact quotient. *)
Definition of_ratio (neg : bool) (p q : positive) : spec_float :=
  let '(m, e, l) := SFdiv_core_binary prec emax (Zpos p) 0 (Zpos q) 0 in
  binary_round_aux prec emax neg m e l.

(** The literal [m * 10 ^ e] with its sign. *)
Definition of_decimal (neg : bool) (m : N) (e : Z) : spec_float :=
  match m with
  | N0 => S754_zero neg
  | Npos p =>
      match e with
      | Zneg k => of_ratio neg p (Pos.pow 10 k)
      | Z0 => of_ratio neg p 1
      | Zpos k => of_ratio neg (p * Pos.pow 10 k) 1
      end
  end.

(** [a / b] for two [int] with [b] positive. *)
Definition true_div (a : Z) (b : positive) : spec_float :=
  match a with
  | Z0 => S754_zero false
  | Zpos p => of_ratio false p b
  | Zneg p => of_ratio true p b
  end.

Definition mul : spec_float -> spec_float -> spec_float := SFmul prec emax.

Definition is_finite (f : spec_float) : bool :=
  match f with
  | S754_zero _ | S754_finite _ _ _ => true
  | _ => false
  end.

(** The magnitude of a finite number as a fraction [n / d], [d] a power
    of two. *)
Definition magnitude (m : positive) (e : Z) : Z * Z :=
  match e with
  | Zneg k => (Zpos m, Z.pow 2 (Zpos k))
  | _ => (Zpos m * Z.pow 2 e, 1)
  end.

(** [int(f)]: truncation toward zero; [None] for an infinity or a NaN. *)
Definition trunc (f : spec_float) : option Z :=
  match f with
  | S754_zero _ => Some 0
  | S754_finite s m e =>
      let '(n, d) := magnitude m e in
      Some (if s then - (n / d) else n / d)
  | _ => None
  end.

(** [math.floor(f)] *)
Definition floor (f : spec_float) : option Z :=
  match f with
  | S754_zero _ => Some 0
  | S754_finite s m e =>
      let '(n, d) := magnitude m e in
      Some (if s then - ((n + d - 1) / d) else n / d)
  | _ => None
  end.

(** The integer nearest to [n / d], ties to even, for [0 <= n], [0 < d]. *)
Definition round_half_even (n d : Z) : Z :=
  let q := n / d in
  let r := n mod d in
  match 2 * r ?= d with
  | Lt => q
  | Gt => q + 1
  | Eq => if Z.even q then q else q + 1
  end.

(** The hundredths of the magnitude, rounded once from the exact value. *)
Definition hundredths (m : positive) (e : Z) : Z :=
  let '(n, d) := magnitude m e in round_half_even (100 * n) d.

Definition sign_str (s : bool) : string := if s then "-" else "".

Definition fixed2 (s : bool) (q : Z) : string :=
  sign_str s ++ PyStr.of_Z (q / 100) ++ "." ++ PyStr.two_digits (q mod 100).

(** [format(f, '.2f')] *)
Definition format_2f (f : spec_float) : string :=
  match f with
  | S754_zero s => fixed2 s 0
  | S754_finite s m e => fixed2 s (hundredths m e)
  | S754_infinity s => sign_str s ++ "inf"
  | S754_nan => "nan"
  end.

(** *** [repr(f)]: the shortest decimal string that reads back as [f]

    CPython prints the shortest string of decimal digits whose nearest
    binary64 number is [f] and, among the strings of that length, the one
    nearest to [f]. *)

(** The position of the decimal point of [n / d]:
    [10 ^ (decpt - 1) <= n / d < 10 ^ decpt]. *)
Fixpoint decpt_up (fuel : nat) (n d k : Z) : Z :=
  match fuel with
  | O => k
  | S fuel' => if n <? d then k else decpt_up fuel' n (10 * d) (k + 1)
  end.

Fixpoint decpt_down (fuel : nat) (n d k : Z) : Z :=
  match fuel with
  | O => k
  | S fuel' => if d <=? 10 * n then k else decpt_down fuel' (10 * n) d (k - 1)
  end.

Definition decpt (n d : Z) : Z :=
  if d <=? n then decpt_up 400 n d 0 else decpt_down 400 n d 0.

(** [n / d * 10 ^ scale] as a fraction. *)
Definition scaled (n d scale : Z) : Z * Z :=
  match scale with
  | Zneg k => (n, d * Z.pow 10 (Zpos k))
  | _ => (n * Z.pow 10 scale, d)
  end.

(** Does the decimal [c * 10 ^ (- scale)] read back as [f]? *)
Definition roundtrips (f : spec_float) (c scale : Z) : bool :=
  SFeqb f (of_decimal false (Z.to_N c) (- scale)).

(** The decimal of [ndigits] digits that reads back as [f], if any. *)
Definition shortest_at (f : spec_float) (n d pt ndigits : Z) : option Z :=
  let scale := ndigits - pt in
  let '(a, b) := scaled n d scale in
  let lo := a / b in
  let hi := lo + 1 in
  match roundtrips f lo scale, roundtrips f hi scale with
  | true, true =>
      Some match 2 * (a mod b) ?= b with
           | Lt => lo
           | Gt => hi
           | Eq => if Z.even lo then lo else hi
           end
  | true, false => Some lo
  | false, true => Some hi
  | false, false => None
  end.

Fixpoint shortest (fuel : nat) (f : spec_float) (n d pt ndigits : Z)
  : Z * Z :=
  match fuel with
  | O => let '(a, b) := scaled n d (ndigits - pt) in
         (round_half_even a b, ndigits - pt)
  | S fuel' =>
      match shortest_at f n d pt ndigits with
      | Some c => (c, ndigits - pt)
      | None => shortest fuel' f n d pt (ndigits + 1)
      end
  end.

Fixpoint strip_zeros_rev (s : list ascii) : list ascii :=
  match s with
  | "0"%char :: s' => strip_zeros_rev s'
  | _ => s
  end.

(** [s.rstrip('0')] *)
Definition rstrip_zeros (s : string) : string :=
  string_of_list_ascii (rev (strip_zeros_rev (rev (list_ascii_of_string s)))).

(** The digits and the decimal point laid out as [repr] does: exponent
    notation when the point is 16 places right of the first digit or
    more, or 4 places left of it or more. *)
Definition layout (digits : string) (pt : Z) : string :=
  let len := Z.of_nat (String.length digits) in
  if (pt <=? -4) || (16 <? pt) then
    let mant :=
      match digits with
      | String c EmptyString => digits
      | String c rest => String c ("." ++ rest)
      | EmptyString => digits
      end in
    let ex := pt - 1 in
    mant ++ "e" ++ (if ex <? 0 then "-" else "+") ++ PyStr.two_digits (Z.abs ex)
  else if pt <=? 0 then
    "0." ++ PyStr.repeat "0" (Z.to_nat (- pt)) ++ digits
  else if len <=? pt then
    digits ++ PyStr.repeat "0" (Z.to_nat (pt - len)) ++ ".0"
  else
    PyStr.take (Z.to_nat pt) digits ++ "." ++ PyStr.drop (Z.to_nat pt) digits.

Definition repr (f : spec_float) : string :=
  match f with
  | S754_zero s => sign_str s ++ "0.0"
  | S754_infinity s => sign_str s ++ "inf"
  | S754_nan => "nan"
  | S754_finite s m e =>
      let '(n, d) := magnitude m e in
      let pt := decpt n d in
      let '(c, scale) := shortest 17 (S754_finite false m e) n d pt 1 in
      let all := PyStr.of_Z c in
      sign_str s
        ++ layout (rstrip_zeros all) (Z.of_nat (String.length all) - scale)
  end.

End Float.

(** ** Exceptions and results *)

(** The exceptions the program can meet. [SystemExit] is raised by
    [sys.exit] and, like every exception that no handler catches, ends the
    process. *)
Inductive exn : Type :=
| SystemExit (code : Z)
| GetoptError (msg : string)
| PycurlError (description : string)
| KeyError (key : string)
| IndexError
| TypeError
| ValueError
| OverflowError
| AttributeError.

Inductive result (A : Type) : Type :=
| Ok (a : A)
| Raise (e : exn).

Arguments Ok {A} a.
Arguments Raise {A} e.

Definition rbind {A B : Type} (r : result A) (k : A -> result B) : result B :=
  match r with
  | Ok a => k a
  | Raise e => Raise e
  end.

Notation "x <-? r ;; k" := (rbind r (fun x => k))
  (at level 61, r at next level, right associativity).
Notation "' pat <-? r ;; k" :=
  (rbind r (fun x => match x with pat => k end))
  (at level 61, pat pattern, r at next level, right associativity).

(** ** Dictionaries in insertion order *)

Module Dict.

Definition t (V : Type) : Type := list (string * V).

(** [d[k]], [None] when the key is absent *)
Fixpoint get {V : Type} (d : t V) (k : string) : option V :=
  match d with
  | [] => None
  | (k', v) :: rest => if String.eqb k k' then Some v else get rest k
  end.

(** [d[k] = v]: an existing key keeps its place, a new one goes last. *)
Fixpoint set {V : Type} (d : t V) (k : string) (v : V) : t V :=
  match d with
  | [] => [(k, v)]
  | (k', v') :: rest =>
      if String.eqb k k' then (k', v) :: rest else (k', v') :: set rest k v
  end.

Definition keys {V : Type} (d : t V) : list string := List.map fst d.

(** [bool(d)] *)
Definition nonempty {V : Type} (d : t V) : bool :=
  match d with [] => false | _ => true end.

(** [next(iter(d))] on a dictionary that is not empty *)
Definition first_key {V : Type} (d : t V) : option string :=
  match d with
  | [] => None
  | (k, _) :: _ => Some k
  end.

(** The dictionary built by inserting the pairs in order. *)
Definition of_pairs {V : Type} (l : list (string * V)) : t V :=
  fold_left (fun d kv => set d (fst kv) (snd kv)) l [].

End Dict.

(** ** Python values *)

Inductive pyval : Type :=
| PyNone
| PyBool (b : bool)
| PyInt (z : Z)
| PyFloat (f : spec_float)
| PyStr (s : string)
| PyList (l : list pyval)
| PyDict (d : list (string * pyval)).

Module Py.

(** One character of [repr] of a [str] quoted with [quote]. *)
Definition repr_char (quote : ascii) (c : ascii) : string :=
  let n := PyStr.code c in
  if Ascii.eqb c quote || Ascii.eqb c "\"%char then String "\"%char (String c "")
  else if n =? 9 then "\t"
  else if n =? 10 then "\n"
  else if n =? 13 then "\r"
  else if (n <? 32) || (n =? 127) then "\x" ++ PyStr.hex2 n
  else String c "".

Fixpoint concat_map (f : ascii -> string) (s : string) : string :=
  match s with
  | EmptyString => ""
  | String c s' => f c ++ concat_map f s'
  end.

(** [repr(s)] for a [str]: single quotes, unless the string holds a
    single quote and no double quote. *)
Definition repr_str (s : string) : string :=
  let quote :=
    if PyStr.contains "'"%char s && negb (PyStr.contains (ascii_of_nat 34) s)
    then ascii_of_nat 34 else "'"%char in
  String quote (concat_map (repr_char quote) s ++ String quote "").

(** [repr(v)] *)
Fixpoint repr (v : pyval) : string :=
  match v with
  | PyNone => "None"
  | PyBool b => if b then "True" else "False"
  | PyInt z => PyStr.of_Z z
  | PyFloat f => Float.repr f
  | PyStr s => repr_str s
  | PyList l => "[" ++ PyStr.join ", " (List.map repr l) ++ "]"
  | PyDict d =>
      "{" ++ PyStr.join ", "
               (List.map (fun kv => match kv with
                                    | (k, x) => repr_str k ++ ": " ++ repr x
                                    end) d)
          ++ "}"
  end.

(** [str(v)], which is also [format(v, '')] and what an f-string field
    without a format specification yields. *)
Definition str (v : pyval) : string :=
  match v with
  | PyStr s => s
  | _ => repr v
  end.

(** [float(z)] for an [int] *)
Definition float_of_int (z : Z) : result spec_float :=
  let f := Float.of_Z z in
  if Float.is_finite f then Ok f else Raise OverflowError.

(** [format(v, '.2f')]: defined on numbers; a [str] does not know the
    format code [f] ([ValueError]), the other types take no format
    specification at all ([TypeError]). *)
Definition format_2f (v : pyval) : result string :=
  match v with
  | PyFloat f => Ok (Float.format_2f f)
  | PyInt z =>
      match float_of_int z with
      | Ok f => Ok (Float.format_2f f)
      | Raise e => Raise e
      end
  | PyBool b => Ok (Float.format_2f (Float.of_Z (if b then 1 else 0)))
  | PyStr _ => Raise ValueError
  | PyNone | PyList _ | PyDict _ => Raise TypeError
  end.

(** [v[k]] for a string [k] *)
Definition getitem (v : pyval) (k : string) : result pyval :=
  match v with
  | PyDict d =>
      match Dict.get d k with
      | Some x => Ok x
      | None => Raise (KeyError k)
      end
  | _ => Raise TypeError
  end.

End Py.

(** ** JSON *)

(** The syntax tree of a JSON text as [json.loads] reads it. A number
    written without fraction and exponent is an [int]; any other number is
    the decimal [m * 10 ^ e] with its sign. *)
Inductive json : Type :=
| JNull
| JBool (b : bool)
| JInt (z : Z)
| JReal (neg : bool) (m : N) (e : Z)
| JNaN
| JInfinity (neg : bool)
| JString (s : string)
| JArray (l : list json)
| JObject (members : list (string * json)).

Module Json.

(** [json.loads]: the members of an object are inserted in order, so a
    repeated name keeps its first place and its last value. *)
Fixpoint loads (j : json) : pyval :=
  match j with
  | JNull => PyNone
  | JBool b => PyBool b
  | JInt z => PyInt z
  | JReal neg m e => PyFloat (Float.of_decimal neg m e)
  | JNaN => PyFloat S754_nan
  | JInfinity neg => PyFloat (S754_infinity neg)
  | JString s => PyStr s
  | JArray l => PyList (List.map loads l)
  | JObject members =>
      PyDict (Dict.of_pairs
                (List.map (fun kv => match kv with
                                     | (k, x) => (k, loads x)
                                     end) members))
  end.

(** One character of a string as [json.dump] writes it with its default
    [ensure_ascii]. *)
Definition encode_char (c : ascii) : string :=
  let n := PyStr.code c in
  if n =? 34 then String "\"%char PyStr.dquote
  else if n =? 92 then "\\"
  else if n =? 10 then "\n"
  else if n =? 13 then "\r"
  else if n =? 9 then "\t"
  else if n =? 12 then "\f"
  else if n =? 8 then "\b"
  else if (n <? 32) || (126 <? n) then "\u00" ++ PyStr.hex2 n
  else String c "".

Definition encode_str (s : string) : string :=
  PyStr.dquote ++ Py.concat_map encode_char s ++ PyStr.dquote.

Definition encode_float (f : spec_float) : string :=
  match f with
  | S754_nan => "NaN"
  | S754_infinity false => "Infinity"
  | S754_infinity true => "-Infinity"
  | _ => Float.repr f
  end.

(** [json.dumps(v)] with the default separators *)
Fixpoint dumps (v : pyval) : string :=
  match v with
  | PyNone => "null"
  | PyBool b => if b then "true" else "false"
  | PyInt z => PyStr.of_Z z
  | PyFloat f => encode_float f
  | PyStr s => encode_str s
  | PyList l => "[" ++ PyStr.join ", " (List.map dumps l) ++ "]"
  | PyDict d =>
      "{" ++ PyStr.join ", "
               (List.map (fun kv => match kv with
                                    | (k, x) => encode_str k ++ ": " ++ dumps x
                                    end) d)
          ++ "}"
  end.

End Json.

(** ** The process: output streams, requests and exceptions *)

(** What the process has done so far: the text written to standard output
    and to standard error, and the URLs requested, oldest first. *)
Record process : Type := {
  stdout : string;
  stderr : string;
  requests : list string
}.

Definition start : process := {| stdout := ""; stderr := ""; requests := [] |}.

(** The three ways the process leaves a trace. *)
Definition out (p : process) (s : string) : process :=
  {| stdout := stdout p ++ s; stderr := stderr p; requests := requests p |}.

Definition err (p : process) (s : string) : process :=
  {| stdout := stdout p; stderr := stderr p ++ s; requests := requests p |}.

Definition asked (p : process) (url : string) : process :=
  {| stdout := stdout p; stderr := stderr p;
     requests := List.app (requests p) [url] |}.

Definition M (A : Type) : Type := process -> result A * process.

Definition ret {A : Type} (a : A) : M A := fun p => (Ok a, p).

Definition bind {A B : Type} (m : M A) (k : A -> M B) : M B :=
  fun p =>
    match m p with
    | (Ok a, p') => k a p'
    | (Raise e, p') => (Raise e, p')
    end.

Notation "x <- m ;; k" := (bind m (fun x => k))
  (at level 61, m at next level, right associativity).
Notation "' pat <- m ;; k" :=
  (bind m (fun x => match x with pat => k end))
  (at level 61, pat pattern, m at next level, right associativity).
Notation "m ;; k" := (bind m (fun _ => k))
  (at level 61, right associativity).

Definition raise {A : Type} (e : exn) : M A := fun p => (Raise e, p).

Definition lift {A : Type} (r : result A) : M A := fun p => (r, p).

(** [sys.stdout.write(s)] *)
Definition write (s : string) : M unit := fun p => (Ok tt, out p s).

(** [print(s)] *)
Definition print (s : string) : M unit := write (s ++ PyStr.nl).

(** [print(s, file=sys.stderr)] *)
Definition eprint (s : string) : M unit :=
  fun p => (Ok tt, err p (s ++ PyStr.nl)).

(** [sys.exit(code)] *)
Definition sys_exit {A : Type} (code : Z) : M A := raise (SystemExit code).

(** [try: body except ...: handler]: the handler chooses the exceptions it
    catches; the others pass through. What the body wrote stays written. *)
Definition try_except {A : Type} (body : M A) (handler : exn -> option (M A))
  : M A :=
  fun p =>
    match body p with
    | (Raise e, p') =>
        match handler e with
        | Some h => h p'
        | None => (Raise e, p')
        end
    | r => r
    end.

(** The exit status of the process: 0 when [main] returns, the code of
    [sys.exit], 1 when an exception reaches the top. *)
Definition exit_status {A : Type} (r : result A) : Z :=
  match r with
  | Ok _ => 0
  | Raise (SystemExit code) => code
  | Raise _ => 1
  end.

(** ** The world outside *)

(** What [Curl.perform] meets at a URL: a transport failure with its
    description, or a body; a body that is not JSON text in UTF-8 is
    [None]. *)
Inductive response : Type :=
| TransportError (description : string)
| Body (content : option json).

Record environ : Type := {
  posixly_correct : bool;
  http_get : string -> response
}.

(** ** [getopt] *)

Module Getopt.

Definition options : Type := list (string * string).

(** [opts.append((option, argument))] *)
Definition append (opts : options) (option argument : string) : options :=
  List.app opts [(option, argument)].

(** [short_has_arg(opt, shortopts)] *)
Fixpoint short_has_arg (opt : ascii) (shortopts : string) : result bool :=
  match shortopts with
  | EmptyString =>
      Raise (GetoptError ("option -" ++ String opt "" ++ " not recognized"))
  | String c rest =>
      if Ascii.eqb opt c && negb (Ascii.eqb c ":"%char)
      then Ok (PyStr.startswith rest ":")
      else short_has_arg opt rest
  end.

(** [do_shorts(opts, optstring, shortopts, args)] *)
Fixpoint do_shorts (opts : options) (optstring shortopts : string)
         (args : list string) : result (options * list string) :=
  match optstring with
  | EmptyString => Ok (opts, args)
  | String opt optstring' =>
      has_arg <-? short_has_arg opt shortopts ;;
      if has_arg then
        if String.eqb optstring' "" then
          match args with
          | [] =>
              Raise (GetoptError
                       ("option -" ++ String opt "" ++ " requires argument"))
          | optarg :: args' =>
              Ok (append opts ("-" ++ String opt "") optarg, args')
          end
        else Ok (append opts ("-" ++ String opt "") optstring', args)
      else
        do_shorts (append opts ("-" ++ String opt "") "")
                  optstring' shortopts args
  end.

(** [long_has_args(opt, longopts)] *)
Definition long_has_args (opt : string) (longopts : list string)
  : result (bool * string) :=
  let possibilities := filter (fun o => PyStr.startswith o opt) longopts in
  match possibilities with
  | [] => Raise (GetoptError ("option --" ++ opt ++ " not recognized"))
  | unique_match :: others =>
      if existsb (String.eqb opt) possibilities then Ok (false, opt)
      else if existsb (String.eqb (opt ++ "=")) possibilities then Ok (true, opt)
      else
        match others with
        | _ :: _ =>
            Raise (GetoptError ("option --" ++ opt ++ " not a unique prefix"))
        | [] =>
            if PyStr.endswith unique_match "="
            then Ok (true, PyStr.take (String.length unique_match - 1)
                                      unique_match)
            else Ok (false, unique_match)
        end
  end.

(** [do_longs(opts, opt, longopts, args)] *)
Definition do_longs (opts : options) (opt : string) (longopts : list string)
           (args : list string) : result (options * list string) :=
  let '(opt, optarg) :=
    match PyStr.find "="%char opt with
    | None => (opt, None)
    | Some i => (PyStr.take i opt, Some (PyStr.drop (S i) opt))
    end in
  '(has_arg, opt) <-? long_has_args opt longopts ;;
  if has_arg then
    match optarg with
    | None =>
        match args with
        | [] => Raise (GetoptError ("option --" ++ opt ++ " requires argument"))
        | optarg :: args' => Ok (append opts ("--" ++ opt) optarg, args')
        end
    | Some optarg => Ok (append opts ("--" ++ opt) optarg, args)
    end
  else
    match optarg with
    | Some _ =>
        Raise (GetoptError
                 ("option --" ++ opt ++ " must not have an argument"))
    | None => Ok (append opts ("--" ++ opt) "", args)
    end.

(** The loop of [gnu_getopt]. Every turn drops at least the first
    argument, so [fuel] above the number of arguments is never used up
    (lemma [scan_fuel] below). *)
Fixpoint scan (fuel : nat) (all_options_first : bool) (shortopts : string)
         (longopts : list string) (opts : options)
         (prog_args args : list string)
  : result (options * list string) :=
  match fuel with
  | O => Ok (opts, prog_args)
  | S fuel' =>
      match args with
      | [] => Ok (opts, prog_args)
      | arg :: rest =>
          if String.eqb arg "--" then Ok (opts, (prog_args ++ rest)%list)
          else if PyStr.startswith arg "--" then
            '(opts, args) <-? do_longs opts (PyStr.drop 2 arg) longopts rest ;;
            scan fuel' all_options_first shortopts longopts opts prog_args args
          else if PyStr.startswith arg "-" && negb (String.eqb arg "-") then
            '(opts, args) <-? do_shorts opts (PyStr.drop 1 arg) shortopts rest ;;
            scan fuel' all_options_first shortopts longopts opts prog_args args
          else if all_options_first then Ok (opts, (prog_args ++ args)%list)
          else scan fuel' all_options_first shortopts longopts opts
                    (prog_args ++ [arg])%list rest
      end
  end.

(** [gnu_getopt(args, shortopts, longopts)] *)
Definition gnu_getopt (env : environ) (args : list string)
           (shortopts : string) (longopts : list string)
  : result (options * list string) :=
  let '(shortopts, all_options_first) :=
    if PyStr.startswith shortopts "+" then (PyStr.drop 1 shortopts, true)
    else if posixly_correct env then (shortopts, true)
    else (shortopts, false) in
  scan (S (List.length args)) all_options_first shortopts longopts [] [] args.

End Getopt.

(** ** [datetime] *)

Module Datetime.

(** A [datetime.datetime]. [tzinfo] is the offset from UTC of an aware
    value, in microseconds, and [None] for a naive one. *)
Record datetime : Type := {
  year : Z;
  month : Z;
  day : Z;
  hour : Z;
  minute : Z;
  second : Z;
  microsecond : Z;
  tzinfo : option Z
}.

(** [timezone.utc] *)
Definition utc : Z := 0.

Definition is_leap (y : Z) : bool :=
  (y mod 4 =? 0) && (negb (y mod 100 =? 0) || (y mod 400 =? 0)).

Definition days_before_year (y : Z) : Z :=
  let y := y - 1 in y * 365 + y / 4 - y / 100 + y / 400.

Definition DAYS_IN_MONTH : list Z :=
  [-1; 31; 28; 31; 30; 31; 30; 31; 31; 30; 31; 30; 31].

Definition DAYS_BEFORE_MONTH : list Z :=
  [-1; 0; 31; 59; 90; 120; 151; 181; 212; 243; 273; 304; 334].

Definition days_in_month (y m : Z) : Z :=
  if (m =? 2) && is_leap y then 29 else nth (Z.to_nat m) DAYS_IN_MONTH (-1).

Definition days_before_month (y m : Z) : Z :=
  nth (Z.to_nat m) DAYS_BEFORE_MONTH (-1)
  + (if (2 <? m) && is_leap y then 1 else 0).

(** [_ymd2ord]: the ordinal of a day, 1 for 0001-01-01. *)
Definition ymd2ord (y m d : Z) : Z :=
  days_before_year y + days_before_month y m + d.

Definition between (lo x hi : Z) : bool := (lo <=? x) && (x <=? hi).

(** The constructor, with its checks of the date and time fields. *)
Definition new (y m d hh mm ss us : Z) (tz : option Z) : result datetime :=
  if between 1 y 9999 && between 1 m 12 && between 1 d (days_in_month y m)
     && between 0 hh 23 && between 0 mm 59 && between 0 ss 59
     && between 0 us 999999
  then Ok {| year := y; month := m; day := d; hour := hh; minute := mm;
             second := ss; microsecond := us; tzinfo := tz |}
  else Raise ValueError.

(** Exactly [n] decimal digits. *)
Definition digits_n (n : nat) (s : string) : result Z :=
  if (String.length s =? n)%nat then
    match PyStr.parse_digits s with
    | Some z => Ok z
    | None => Raise ValueError
    end
  else Raise ValueError.

Definition expect (c : ascii) (s : string) : result string :=
  match s with
  | String d rest => if Ascii.eqb c d then Ok rest else Raise ValueError
  | EmptyString => Raise ValueError
  end.

(** [_parse_isoformat_date]: [YYYY-MM-DD] *)
Definition parse_isoformat_date (dtstr : string) : result (Z * Z * Z) :=
  y <-? digits_n 4 (PyStr.take 4 dtstr) ;;
  rest <-? expect "-" (PyStr.drop 4 dtstr) ;;
  m <-? digits_n 2 (PyStr.take 2 rest) ;;
  rest <-? expect "-" (PyStr.drop 2 rest) ;;
  d <-? digits_n 2 rest ;;
  Ok (y, m, d).

(** The loop of [_parse_hh_mm_ss_ff] over hours, minutes and seconds:
    the components read and what is left of the string. [left] counts the
    components still allowed. *)
Fixpoint parse_components (left : nat) (tstr : string)
  : result (list Z * string) :=
  match left with
  | O => Ok ([], tstr)
  | S left' =>
      v <-? digits_n 2 (PyStr.take 2 tstr) ;;
      match PyStr.drop 2 tstr, left' with
      | EmptyString, _ => Ok ([v], "")
      | rest, O => Ok ([v], rest)
      | String next_char rest, _ =>
          if Ascii.eqb next_char ":" then
            '(vs, rest') <-? parse_components left' rest ;;
            Ok (v :: vs, rest')
          else Raise ValueError
      end
  end.

(** [_parse_hh_mm_ss_ff]: [HH[:MM[:SS[.fff[fff]]]]] *)
Definition parse_hh_mm_ss_ff (tstr : string) : result (Z * Z * Z * Z) :=
  '(comps, rest) <-? parse_components 3 tstr ;;
  us <-? match rest with
         | EmptyString => Ok 0
         | String c frac =>
             if Ascii.eqb c "." then
               match String.length frac with
               | 3%nat => v <-? digits_n 3 frac ;; Ok (v * 1000)
               | 6%nat => digits_n 6 frac
               | _ => Raise ValueError
               end
             else Raise ValueError
         end ;;
  Ok (nth 0 comps 0, nth 1 comps 0, nth 2 comps 0, us).

Definition day_us : Z := 86400 * 1000000.

(** [_parse_isoformat_time]: the time of day and, after the first sign
    character, the offset [HH:MM[:SS[.ffffff]]]; a [timezone] takes an
    offset strictly between minus and plus 24 hours. *)
Definition parse_isoformat_time (tstr : string)
  : result (Z * Z * Z * Z * option Z) :=
  if (String.length tstr <? 2)%nat then Raise ValueError else
  let tz_pos :=
    match PyStr.find "-" tstr with
    | Some i => Some (i, true)
    | None =>
        match PyStr.find "+" tstr with
        | Some i => Some (i, false)
        | None => None
        end
    end in
  match tz_pos with
  | None =>
      '(hh, mm, ss, us) <-? parse_hh_mm_ss_ff tstr ;;
      Ok (hh, mm, ss, us, None)
  | Some (i, negative) =>
      '(hh, mm, ss, us) <-? parse_hh_mm_ss_ff (PyStr.take i tstr) ;;
      let tzstr := PyStr.drop (S i) tstr in
      let len := String.length tzstr in
      if ((len =? 5) || (len =? 8) || (len =? 15))%nat then
        '(th, tm, ts, tu) <-? parse_hh_mm_ss_ff tzstr ;;
        let td := ((th * 3600 + tm * 60 + ts) * 1000000 + tu) in
        let offset := if negative then - td else td in
        if (- day_us <? offset) && (offset <? day_us)
        then Ok (hh, mm, ss, us, Some offset)
        else Raise ValueError
      else Raise ValueError
  end.

(** [datetime.fromisoformat(v)], for the strings that
    [datetime.isoformat] writes:
    [YYYY-MM-DD[*HH[:MM[:SS[.fff[fff]]]][+HH:MM[:SS[.ffffff]]]]], where
    [*] is any one character. Any other string raises [ValueError], as
    does a field out of its range; a value that is not a [str] raises
    [TypeError]. *)
Definition fromisoformat (v : pyval) : result datetime :=
  match v with
  | PyStr date_string =>
      if (String.length date_string <? 10)%nat then Raise ValueError else
      '(y, m, d) <-? parse_isoformat_date (PyStr.take 10 date_string) ;;
      match PyStr.drop 10 date_string with
      | EmptyString => new y m d 0 0 0 0 None
      | String _ tstr =>
          '(hh, mm, ss, us, tz) <-? parse_isoformat_time tstr ;;
          new y m d hh mm ss us tz
      end
  | _ => Raise TypeError
  end.

(** [d.replace(tzinfo=tz)]: the fields stay, the offset is overwritten. *)
Definition replace_tzinfo (d : datetime) (tz : Z) : datetime :=
  {| year := year d; month := month d; day := day d; hour := hour d;
     minute := minute d; second := second d; microsecond := microsecond d;
     tzinfo := Some tz |}.

(** The ordinal of 1970-01-01. *)
Definition EPOCH_ORDINAL : Z := 719163.

(** The microseconds between the epoch and the fields of [d] read as
    UTC. *)
Definition field_microseconds (d : datetime) : Z :=
  ((ymd2ord (year d) (month d) (day d) - EPOCH_ORDINAL) * 86400
   + hour d * 3600 + minute d * 60 + second d) * 1000000
  + microsecond d.

(** [d.timestamp()] of an aware [d]: [(d - _EPOCH).total_seconds()], the
    microseconds divided by [10 ** 6] as [int]. A naive value would be
    read in the local time zone of the machine, which the program never
    asks for: [None]. *)
Definition timestamp (d : datetime) : option spec_float :=
  match tzinfo d with
  | Some offset => Some (Float.true_div (field_microseconds d - offset) 1000000)
  | None => None
  end.

End Datetime.

(** ** The program *)

(** *** [class ArgparseFaux] *)

Record ArgparseFaux : Type := { prog : string }.

(** [ArgparseFaux.error(message, errno=2)] *)
Definition error {A : Type} (self : ArgparseFaux) (message : string) : M A :=
  eprint (prog self ++ ": " ++ message ++ PyStr.nl
          ++ "Try `" ++ prog self ++ " --help' for more information.") ;;
  sys_exit 2.

(** *** [class Arguments]

    [address] is [None] until the attribute is assigned. *)
Module Arguments.
Record t : Type := {
  format : option string;
  mac : option string;
  address : option string
}.

(** [Arguments()] *)
Definition init : t := {| format := None; mac := None; address := None |}.

Definition set_format (a : t) (v : string) : t :=
  {| format := Some v; mac := mac a; address := address a |}.
Definition set_mac (a : t) (v : string) : t :=
  {| format := format a; mac := Some v; address := address a |}.
Definition set_address (a : t) (v : string) : t :=
  {| format := format a; mac := mac a; address := Some v |}.
End Arguments.

(** The usage text of [parse_arguments]. *)
Definition helpstring (parser : ArgparseFaux) : string :=
  "usage: " ++ prog parser ++ " [OPTIONS]... ADDRESS" ++ PyStr.nl
  ++ "Display information from a ruuvitag-hark server in a specified format."
  ++ PyStr.nl ++ PyStr.nl
  ++ "Options:" ++ PyStr.nl
  ++ "  -F, --format FORMAT  Specify what FORMAT to use for the output. See FORMAT"
  ++ PyStr.nl
  ++ "      --show MAC       Show ruuvitag with MAC address" ++ PyStr.nl
  ++ "  -h, --help           Print this message then exits" ++ PyStr.nl
  ++ PyStr.nl
  ++ "FORMAT:" ++ PyStr.nl
  ++ "  Supported formats:" ++ PyStr.nl
  ++ "    waybar: wayland bar for wlroots based compositors." ++ PyStr.nl
  ++ "    influxdb: time series database." ++ PyStr.nl.

(** [l[-1]], [None] for the empty list *)
Fixpoint last_item {A : Type} (l : list A) : option A :=
  match l with
  | [] => None
  | [a] => Some a
  | _ :: rest => last_item rest
  end.

(** [option in (a, b)] *)
Definition is_one_of (option a b : string) : bool :=
  String.eqb option a || String.eqb option b.

(** The loop of [parse_arguments] over the options found. *)
Fixpoint handle_options (parser : ArgparseFaux) (opts : Getopt.options)
         (args : Arguments.t) : M Arguments.t :=
  match opts with
  | [] => ret args
  | (option, argument) :: rest =>
      if is_one_of option "-h" "--help" then
        print (helpstring parser) ;;
        sys_exit 0
      else if String.eqb option "--show" then
        handle_options parser rest (Arguments.set_mac args (PyStr.upper argument))
      else if is_one_of option "-F" "--format" then
        handle_options parser rest
                       (Arguments.set_format args (PyStr.lower argument))
      else handle_options parser rest args
  end.

(** [parse_arguments(argv)] *)
Definition parse_arguments (env : environ) (argv : list string)
  : M (ArgparseFaux * Arguments.t) :=
  match argv with
  | [] => raise IndexError
  | argv0 :: rest =>
      let parser := {| prog := PyStr.basename argv0 |} in
      let args := Arguments.init in
      '(opts, args) <-
        try_except
          ('(opts, address) <-
             lift (Getopt.gnu_getopt env rest "hF:" ["help"; "format="; "show="]) ;;
           match last_item address with
           | Some a => ret (opts, Arguments.set_address args a)
           | None =>
               error parser "Need to specify an url to a ruuvitag-hark server."
           end)
          (fun e => match e with
                    | GetoptError err => Some (error parser err)
                    | _ => None
                    end) ;;
      args <- handle_options parser opts args ;;
      ret (parser, args)
  end.

(** *** [class Acceleration] and [class Tag] *)

Record Acceleration : Type := { x : pyval; y : pyval; z : pyval }.

Module Tag.
Record t : Type := {
  mac : pyval;
  name : pyval;
  humidity : pyval;
  temperature : pyval;
  pressure : pyval;
  acceleration : Acceleration;
  battery : pyval;
  time : pyval
}.

(** [Tag()]: every field at its default. *)
Definition default : t := {|
  mac := PyStr "--:--:--:--:--:--";
  name := PyStr "Unknown";
  humidity := PyStr "-";
  temperature := PyStr "-";
  pressure := PyStr "-";
  acceleration := {| x := PyInt 0; y := PyInt 0; z := PyInt 0 |};
  battery := PyStr "?";
  time := PyStr "?"
|}.

(** [Tag.__repr__], which [str(tag)] and an f-string field call: the
    three fields are formatted from left to right. *)
Definition repr (self : t) : result string :=
  temp <-? Py.format_2f (temperature self) ;;
  hum <-? Py.format_2f (humidity self) ;;
  pres <-? Py.format_2f (pressure self) ;;
  Ok (temp ++ "C " ++ hum ++ "% " ++ pres ++ "hPa").
End Tag.

(** *** [fetch_tags] *)

(** [c.perform()] on the URL: the request is made, and a transport failure
    raises [pycurl.error]. *)
Definition perform (env : environ) (url : string) : M (option json) :=
  fun p =>
    match http_get env url with
    | TransportError description =>
        (Raise (PycurlError description), asked p url)
    | Body content => (Ok content, asked p url)
    end.

(** [Tag(mac=data['mac'], ...)]: the subscripts are evaluated in the order
    written, and the first that fails raises. *)
Definition tag_of_data (data : pyval) : result Tag.t :=
  mac <-? Py.getitem data "mac" ;;
  name <-? Py.getitem data "name" ;;
  humidity <-? Py.getitem data "humidity" ;;
  temperature <-? Py.getitem data "temperature" ;;
  pressure <-? Py.getitem data "pressure" ;;
  ax <-? Py.getitem data "acceleration_x" ;;
  ay <-? Py.getitem data "acceleration_y" ;;
  az <-? Py.getitem data "acceleration_z" ;;
  battery <-? Py.getitem data "battery" ;;
  time <-? Py.getitem data "time" ;;
  Ok {| Tag.mac := mac; Tag.name := name; Tag.humidity := humidity;
        Tag.temperature := temperature; Tag.pressure := pressure;
        Tag.acceleration := {| x := ax; y := ay; z := az |};
        Tag.battery := battery; Tag.time := time |}.

(** The loop of [fetch_tags] over [tags_json.items()]. *)
Fixpoint collect_tags (items : list (string * pyval)) (tags : Dict.t Tag.t)
  : result (Dict.t Tag.t) :=
  match items with
  | [] => Ok tags
  | (mac, data) :: rest =>
      tag <-? tag_of_data data ;;
      collect_tags rest (Dict.set tags mac tag)
  end.

(** What [fetch_tags] does with the body received: decode it, read it as
    JSON, and store one [Tag] per item of the object. *)
Definition decode_body (body : option json) : result (Dict.t Tag.t) :=
  tags_json <-? match body with
                | Some j => Ok (Json.loads j)
                | None => Raise ValueError
                end ;;
  items <-? match tags_json with
            | PyDict d => Ok d
            | _ => Raise AttributeError
            end ;;
  collect_tags items [].

(** [fetch_tags(address)]. Only [c.perform()] can raise [pycurl.error], and
    it does so before the first tag is stored, so the handler returns the
    empty dictionary. *)
Definition fetch_tags (env : environ) (address : string) : M (Dict.t Tag.t) :=
  try_except
    (body <- perform env (address ++ "/data") ;;
     lift (decode_body body))
    (fun e => match e with
              | PycurlError err => Some (eprint err ;; ret [])
              | _ => None
              end).

(** *** [run] *)

(** [bool(m)] for [args.mac]: [None] and the empty string are false. *)
Definition truthy (m : option string) : bool :=
  match m with
  | Some (String _ _) => true
  | _ => false
  end.

(** [if tags and not args.mac: args.mac = next(iter(tags))] *)
Definition choose_mac (args : Arguments.t) (tags : Dict.t Tag.t)
  : Arguments.t :=
  if Dict.nonempty tags && negb (truthy (Arguments.mac args)) then
    match Dict.first_key tags with
    | Some first => Arguments.set_mac args first
    | None => args
    end
  else args.

(** [str(m)] for [args.mac] *)
Definition str_of_mac (m : option string) : string :=
  match m with
  | Some s => s
  | None => "None"
  end.

(** [tags[args.mac]] *)
Definition lookup (tags : Dict.t Tag.t) (m : option string) : result Tag.t :=
  match m with
  | Some k =>
      match Dict.get tags k with
      | Some tag => Ok tag
      | None => Raise (KeyError k)
      end
  | None => Raise (KeyError "None")
  end.

(** [[f'{tag.name}: {tag}' for mac, tag in tags.items()]] *)
Fixpoint tooltip_lines (items : list (string * Tag.t)) : result (list string) :=
  match items with
  | [] => Ok []
  | (_, tag) :: rest =>
      display <-? Tag.repr tag ;;
      lines <-? tooltip_lines rest ;;
      Ok ((Py.str (Tag.name tag) ++ ": " ++ display) :: lines)
  end.

(** The dictionary of the waybar branch for tags that are not empty; its
    values are evaluated in the order written. *)
Definition waybar_object (args : Arguments.t) (tags : Dict.t Tag.t)
  : result pyval :=
  shown <-? lookup tags (Arguments.mac args) ;;
  text <-? Tag.repr shown ;;
  lines <-? tooltip_lines tags ;;
  shown' <-? lookup tags (Arguments.mac args) ;;
  Ok (PyDict [("text", PyStr text);
              ("tooltip", PyStr (PyStr.join PyStr.nl lines));
              ("class", PyStr "ruuvitag");
              ("percentage", Tag.humidity shown')]).

(** The dictionary of the waybar branch for no tags. *)
Definition waybar_fallback : result pyval :=
  text <-? Tag.repr Tag.default ;;
  Ok (PyDict [("text", PyStr text);
              ("class", PyStr "ruuvitag");
              ("percentage", PyInt 0)]).

(** The waybar branch: the dictionary is built, then [json.dump] writes
    it to standard output. *)
Definition waybar (args : Arguments.t) (tags : Dict.t Tag.t) : M unit :=
  if Dict.nonempty tags then
    obj <- lift (waybar_object args tags) ;;
    write (Json.dumps obj)
  else
    obj <- lift waybar_fallback ;;
    write (Json.dumps obj).

(** [int(f)] *)
Definition int_of_float (f : spec_float) : result Z :=
  match f with
  | S754_nan => Raise ValueError
  | _ => match Float.trunc f with
         | Some n => Ok n
         | None => Raise OverflowError
         end
  end.

(** The timestamp of a tag in the influxdb branch. *)
Definition nanoseconds (tag : Tag.t) : result Z :=
  time_d <-? Datetime.fromisoformat (Tag.time tag) ;;
  let time_d := Datetime.replace_tzinfo time_d Datetime.utc in
  seconds <-? match Datetime.timestamp time_d with
              | Some f => Ok f
              | None => Raise ValueError
              end ;;
  int_of_float (Float.mul seconds (Float.of_Z 1000000000)).

(** The loop of the influxdb branch. *)
Fixpoint influxdb (items : list (string * Tag.t)) : M unit :=
  match items with
  | [] => ret tt
  | (mac, tag) :: rest =>
      timestamp <- lift (nanoseconds tag) ;;
      let stamp := PyStr.of_Z timestamp in
      print ("temperature,mac=" ++ mac ++ " temp_C="
             ++ Py.str (Tag.temperature tag) ++ " " ++ stamp) ;;
      print ("humidity,mac=" ++ mac ++ " humidity_percent="
             ++ Py.str (Tag.humidity tag) ++ " " ++ stamp) ;;
      print ("pressure,mac=" ++ mac ++ " pressure_hPa="
             ++ Py.str (Tag.pressure tag) ++ " " ++ stamp) ;;
      print ("acceleration_x,mac=" ++ mac ++ " acceleration_g="
             ++ Py.str (x (Tag.acceleration tag)) ++ " " ++ stamp) ;;
      print ("acceleration_y,mac=" ++ mac ++ " acceleration_g="
             ++ Py.str (y (Tag.acceleration tag)) ++ " " ++ stamp) ;;
      print ("acceleration_z,mac=" ++ mac ++ " acceleration_g="
             ++ Py.str (z (Tag.acceleration tag)) ++ " " ++ stamp) ;;
      print ("battery,mac=" ++ mac ++ " battery_volt="
             ++ Py.str (Tag.battery tag) ++ " " ++ stamp) ;;
      influxdb rest
  end.

(** The dispatch on [args.format]. *)
Definition dispatch (parser : ArgparseFaux) (args : Arguments.t)
           (tags : Dict.t Tag.t) : M unit :=
  match Arguments.format args with
  | None => waybar args tags
  | Some format =>
      if String.eqb format "waybar" then waybar args tags
      else if String.eqb format "influxdb" then influxdb tags
      else error parser (format ++ " is currently not supported")
  end.

(** The [try] statement of [run]: only [KeyError] is caught. *)
Definition render (parser : ArgparseFaux) (args : Arguments.t)
           (tags : Dict.t Tag.t) : M unit :=
  try_except
    (dispatch parser args tags)
    (fun e =>
       match e with
       | KeyError _ =>
           Some (error parser ("Tag " ++ PyStr.dquote
                               ++ str_of_mac (Arguments.mac args)
                               ++ PyStr.dquote ++ " does not exist"))
       | _ => None
       end).

(** [run(argv)] *)
Definition run (env : environ) (argv : list string) : M unit :=
  '(parser, args) <- parse_arguments env argv ;;
  address <- match Arguments.address args with
             | Some a => ret a
             | None => raise AttributeError
             end ;;
  tags <- fetch_tags env address ;;
  render parser (choose_mac args tags) tags.

(** [main()]: the exit status of the process and what it has done. *)
Definition main (env : environ) (argv : list string) : Z * process :=
  let '(r, p) := run env argv start in (exit_status r, p).

(** ** Vocabulary of the properties *)

(** Does an option ask for the usage text? *)
Definition asks_help (opts : Getopt.options) : bool :=
  existsb (fun oa => is_one_of (fst oa) "-h" "--help") opts.

(** The argument of the last [--show] option. *)
Fixpoint shown (opts : Getopt.options) : option string :=
  match opts with
  | [] => None
  | (option, argument) :: rest =>
      match shown rest with
      | Some v => Some v
      | None => if String.eqb option "--show" then Some argument else None
      end
  end.

(** The argument of the last [-F] or [--format] option. *)
Fixpoint requested_format (opts : Getopt.options) : option string :=
  match opts with
  | [] => None
  | (option, argument) :: rest =>
      match requested_format rest with
      | Some v => Some v
      | None => if is_one_of option "-F" "--format" then Some argument else None
      end
  end.

(** What [parse_arguments] stores for options that do not ask for help
    and a last positional argument [a]. *)
Definition stored (opts : Getopt.options) (a : string) : Arguments.t :=
  {| Arguments.format := option_map PyStr.lower (requested_format opts);
     Arguments.mac := option_map PyStr.upper (shown opts);
     Arguments.address := Some a |}.

(** The two lines [ArgparseFaux.error] writes to standard error. *)
Definition complaint (parser : ArgparseFaux) (message : string) : string :=
  (prog parser ++ ": " ++ message ++ PyStr.nl
   ++ "Try `" ++ prog parser ++ " --help' for more information.") ++ PyStr.nl.

(** The options and the long options [parse_arguments] passes to
    [gnu_getopt]. *)
Definition getopt (env : environ) (rest : list string)
  : result (Getopt.options * list string) :=
  Getopt.gnu_getopt env rest "hF:" ["help"; "format="; "show="].

(** A field that holds a number, as the [float] the format [.2f] works
    on: a [float] itself, or an [int] within the range of [float]. *)
Definition number (v : pyval) : option spec_float :=
  match v with
  | PyFloat f => Some f
  | PyInt n =>
      if Float.is_finite (Float.of_Z n) then Some (Float.of_Z n) else None
  | _ => None
  end.

(** [q] hundredths are nearest to the magnitude [m * 2 ^ e]: they differ
    from it by half a hundredth at most. *)
Definition nearest_hundredths (m : positive) (e : Z) (q : Z) : Prop :=
  0 <= q
  /\ Z.abs (2 * (100 * fst (Float.magnitude m e))
            - 2 * (q * snd (Float.magnitude m e)))
     <= snd (Float.magnitude m e).

(** [text] is [f] in fixed-point notation with two decimals: the sign, the
    nearest hundredths with the point before the last two digits; an
    infinity and a NaN are spelled out. *)
Definition two_decimals (f : spec_float) (text : string) : Prop :=
  match f with
  | S754_zero s => text = Float.fixed2 s 0
  | S754_finite s m e =>
      exists q : Z, nearest_hundredths m e q /\ text = Float.fixed2 s q
  | S754_infinity s => text = Float.sign_str s ++ "inf"
  | S754_nan => text = "nan"
  end.

(** One record of the line protocol:
    [<measurement>,mac=<mac> <field>=<value> <timestamp>]. *)
Definition line_protocol (measurement mac field value stamp : string)
  : string :=
  measurement ++ ",mac=" ++ mac ++ " " ++ field ++ "=" ++ value ++ " " ++ stamp.

(** The seven records of one tag, all with the same timestamp. *)
Definition record_lines (mac : string) (tag : Tag.t) (timestamp : Z)
  : list string :=
  let stamp := PyStr.of_Z timestamp in
  [line_protocol "temperature" mac "temp_C"
                 (Py.str (Tag.temperature tag)) stamp;
   line_protocol "humidity" mac "humidity_percent"
                 (Py.str (Tag.humidity tag)) stamp;
   line_protocol "pressure" mac "pressure_hPa"
                 (Py.str (Tag.pressure tag)) stamp;
   line_protocol "acceleration_x" mac "acceleration_g"
                 (Py.str (x (Tag.acceleration tag))) stamp;
   line_protocol "acceleration_y" mac "acceleration_g"
                 (Py.str (y (Tag.acceleration tag))) stamp;
   line_protocol "acceleration_z" mac "acceleration_g"
                 (Py.str (z (Tag.acceleration tag))) stamp;
   line_protocol "battery" mac "battery_volt"
                 (Py.str (Tag.battery tag)) stamp].

(** The records of the tags in order, given the timestamp of each. *)
Fixpoint all_lines (items : list (string * Tag.t)) (stamps : list Z)
  : list string :=
  match items, stamps with
  | (mac, tag) :: items', stamp :: stamps' =>
      List.app (record_lines mac tag stamp) (all_lines items' stamps')
  | _, _ => []
  end.

(** Lines as [print] leaves them on a stream: each ends in a line feed. *)
Fixpoint printed (lines : list string) : string :=
  match lines with
  | [] => ""
  | line :: rest => line ++ PyStr.nl ++ printed rest
  end.

(** [math.floor(f)] as an [int], which is what C8 as written takes. *)
Definition int_floor (f : spec_float) : result Z :=
  match f with
  | S754_nan => Raise ValueError
  | _ => match Float.floor f with
         | Some n => Ok n
         | None => Raise OverflowError
         end
  end.

(** The timestamp C8 as written describes: parse, overwrite the offset
    with UTC, and take the floor of the seconds times [10 ^ 9]. *)
Definition floor_nanoseconds (tag : Tag.t) : result Z :=
  time_d <-? Datetime.fromisoformat (Tag.time tag) ;;
  let time_d := Datetime.replace_tzinfo time_d Datetime.utc in
  seconds <-? match Datetime.timestamp time_d with
              | Some f => Ok f
              | None => Raise ValueError
              end ;;
  int_floor (Float.mul seconds (Float.of_Z 1000000000)).

(** A float that is not negative (a NaN has no sign). *)
Definition not_negative (f : spec_float) : Prop :=
  match f with
  | S754_zero s | S754_infinity s | S754_finite s _ _ => s = false
  | S754_nan => True
  end.

(** The tooltip of the waybar object, given the display string of each
    tag. *)
Fixpoint tooltip_of (items : list (string * Tag.t)) (displays : list string)
  : list string :=
  match items, displays with
  | (_, tag) :: items', display :: displays' =>
      (Py.str (Tag.name tag) ++ ": " ++ display) :: tooltip_of items' displays'
  | _, _ => []
  end.

(** The exceptions that reading the body can raise: a body that is not
    JSON, a value of the wrong shape, a missing field. *)
Definition data_error (e : exn) : Prop :=
  match e with
  | ValueError | AttributeError | TypeError | KeyError _ => True
  | _ => False
  end.

(** The exceptions that formatting a field or reading a time can raise. *)
Definition format_error (e : exn) : Prop :=
  match e with
  | ValueError | TypeError | OverflowError => True
  | _ => False
  end.

(** A run that leaves through [sys.exit] does so with status 0 or 2. *)
Definition exits_0_or_2 {A : Type} (r : result A) : Prop :=
  match r with
  | Raise (SystemExit code) => code = 0 \/ code = 2
  | _ => True
  end.

(** Is [c] a lower-case letter? *)
Definition is_lower_letter (c : ascii) : bool :=
  ((97 <=? nat_of_ascii c) && (nat_of_ascii c <=? 122))%nat.

(** Does [s] hold a lower-case letter? *)
Fixpoint has_lower (s : string) : bool :=
  match s with
  | EmptyString => false
  | String c s' => is_lower_letter c || has_lower s'
  end.

(** Does a field have a display form under [.2f]: a number or a [bool]? *)
Definition formattable (v : pyval) : bool :=
  match v with
  | PyFloat _ | PyBool _ => true
  | PyInt n => Float.is_finite (Float.of_Z n)
  | _ => false
  end.

(** A printable ASCII character: from the space to the tilde. *)
Definition printable (c : ascii) : bool :=
  ((32 <=? nat_of_ascii c) && (nat_of_ascii c <=? 126))%nat.

(** A text of printable ASCII characters only: no line feed, no other
    control character, nothing above 126. *)
Fixpoint all_printable (s : string) : bool :=
  match s with
  | EmptyString => true
  | String c s' => printable c && all_printable s'
  end.

(** A text of decimal digits only. *)
Fixpoint all_digits (s : string) : bool :=
  match s with
  | EmptyString => true
  | String c s' => PyStr.is_digit c && all_digits s'
  end.

(** [text] is a number in fixed-point notation with two decimals: an
    optional minus sign, one decimal digit or more, a point, two decimal
    digits. *)
Definition fixed_point_text (text : string) : Prop :=
  exists sign whole frac : string,
    text = sign ++ whole ++ "." ++ frac
    /\ (sign = "" \/ sign = "-")
    /\ whole <> "" /\ all_digits whole = true
    /\ String.length frac = 2%nat /\ all_digits frac = true.

(** What the format [.2f] can yield: fixed-point notation, or the name of
    an infinity or of a NaN. *)
Definition decimal_text (text : string) : Prop :=
  fixed_point_text text \/ In text ["nan"; "inf"; "-inf"].

(** ** Concrete worlds, for the examples *)

Definition refused : string :=
  "(7, 'Failed to connect to localhost port 8080: Connection refused')".

(** No server answers. *)
Definition offline : environ :=
  {| posixly_correct := false; http_get := fun _ => TransportError refused |}.

(** The server answers every request with [body]. *)
Definition serving (body : json) : environ :=
  {| posixly_correct := false; http_get := fun _ => Body (Some body) |}.

(** One entry of the server's answer. *)
Definition reading (mac name : string) (temperature humidity pressure : json)
           (time : string) : json :=
  JObject [("mac", JString mac); ("name", JString name);
           ("humidity", humidity); ("temperature", temperature);
           ("pressure", pressure);
           ("acceleration_x", JReal false 12 (-3));
           ("acceleration_y", JReal true 5 (-1));
           ("acceleration_z", JInt 1);
           ("battery", JReal false 2995 (-3)); ("time", JString time)].

(** 21.5 degrees, 40.2 percent, 1013.0 hPa at the start of 2020. *)
Definition sauna : json :=
  reading "AA:BB:CC:DD:EE:FF" "Sauna"
          (JReal false 215 (-1)) (JReal false 402 (-1)) (JReal false 10130 (-1))
          "2020-01-01T00:00:00+00:00".

(** A reading taken 123 microseconds before the epoch. *)
Definition attic : json :=
  reading "11:22:33:44:55:66" "Attic"
          (JInt 20) (JReal false 555 (-1)) (JReal false 99912 (-2))
          "1969-12-31T23:59:59.999877".

Definition one_tag : json := JObject [("AA:BB:CC:DD:EE:FF", sauna)].

Definition two_tags : json :=
  JObject [("AA:BB:CC:DD:EE:FF", sauna); ("11:22:33:44:55:66", attic)].

Definition url : string := "http://localhost:8080".

(** An entry without its [time] field. *)
Definition timeless : json :=
  JObject [("mac", JString "AA:BB:CC:DD:EE:FF"); ("name", JString "Sauna");
           ("humidity", JReal false 402 (-1));
           ("temperature", JReal false 215 (-1));
           ("pressure", JReal false 10130 (-1));
           ("acceleration_x", JInt 0); ("acceleration_y", JInt 0);
           ("acceleration_z", JInt 1); ("battery", JReal false 2995 (-3))].

(** A tag read at [time], with the readings of the sauna. *)
Definition tag_at (time : string) : Tag.t :=
  {| Tag.mac := PyStr "AA:BB:CC:DD:EE:FF";
     Tag.name := PyStr "Sauna";
     Tag.humidity := PyFloat (Float.of_decimal false 402 (-1));
     Tag.temperature := PyFloat (Float.of_decimal false 215 (-1));
     Tag.pressure := PyFloat (Float.of_decimal false 10130 (-1));
     Tag.acceleration := {| x := PyFloat (Float.of_decimal false 12 (-3));
                            y := PyFloat (Float.of_decimal true 5 (-1));
                            z := PyInt 1 |};
     Tag.battery := PyFloat (Float.of_decimal false 2995 (-3));
     Tag.time := PyStr time |}.

(** The TagSet [fetch_tags] builds from a body. *)
Definition tags_of (body : json) : Dict.t Tag.t :=
  match decode_body (Some body) with
  | Ok tags => tags
  | Raise _ => []
  end.

(** * Properties *)

(** ** Sequencing *)

Lemma bind_ok {A B : Type} (m : M A) (k : A -> M B) (p p' : process) (a : A) :
  m p = (Ok a, p') -> bind m k p = k a p'.
Proof. unfold bind. intros ->. reflexivity. Qed.

Lemma bind_raise {A B : Type} (m : M A) (k : A -> M B) (p p' : process)
      (e : exn) :
  m p = (Raise e, p') -> bind m k p = (Raise e, p').
Proof. unfold bind. intros ->. reflexivity. Qed.

Lemma error_exits {A : Type} (parser : ArgparseFaux) (message : string)
      (p : process) :
  @error A parser message p
  = (Raise (SystemExit 2), err p (complaint parser message)).
Proof. reflexivity. Qed.

(** ** Parsing the arguments *)

Lemma last_item_some {A : Type} (l : list A) :
  l <> [] -> exists a, last_item l = Some a.
Proof.
  induction l as [|a l IH]; intros H.
  - contradiction.
  - destruct l as [|b l].
    + exists a. reflexivity.
    + destruct IH as [c Hc]; [discriminate|].
      exists c. exact Hc.
Qed.

(** An option that asks for help ends the loop over the options: the usage
    text goes to standard output and the process exits with status 0. *)
Lemma handle_options_help (parser : ArgparseFaux) (opts : Getopt.options) :
  asks_help opts = true ->
  forall (args : Arguments.t) (p : process),
    handle_options parser opts args p
    = (Raise (SystemExit 0), out p (helpstring parser ++ PyStr.nl)).
Proof.
  induction opts as [|[option argument] rest IH]; intros H args p.
  - discriminate.
  - cbn [asks_help existsb fst] in H.
    cbn [handle_options].
    destruct (is_one_of option "-h" "--help") eqn:Hh.
    + reflexivity.
    + cbn [orb] in H.
      destruct (String.eqb option "--show");
        [|destruct (is_one_of option "-F" "--format")]; apply IH; exact H.
Qed.

(** Without such an option the loop stores the last [--show] value in
    upper case and the last format in lower case, and writes nothing. *)
Lemma handle_options_store (parser : ArgparseFaux) (opts : Getopt.options) :
  asks_help opts = false ->
  forall (args : Arguments.t) (p : process),
    handle_options parser opts args p
    = (Ok {| Arguments.format :=
               match requested_format opts with
               | Some v => Some (PyStr.lower v)
               | None => Arguments.format args
               end;
             Arguments.mac :=
               match shown opts with
               | Some v => Some (PyStr.upper v)
               | None => Arguments.mac args
               end;
             Arguments.address := Arguments.address args |}, p).
Proof.
  induction opts as [|[option argument] rest IH]; intros H args p.
  - destruct args; reflexivity.
  - cbn [asks_help existsb fst] in H.
    apply orb_false_iff in H. destruct H as [Hh Hrest].
    cbn [handle_options shown requested_format]. rewrite Hh.
    destruct (String.eqb option "--show") eqn:Hs.
    + rewrite (IH Hrest). cbn.
      assert (Hf : is_one_of option "-F" "--format" = false).
      { apply String.eqb_eq in Hs. subst option. reflexivity. }
      rewrite Hf.
      destruct (requested_format rest), (shown rest); reflexivity.
    + destruct (is_one_of option "-F" "--format") eqn:Hf.
      * rewrite (IH Hrest). cbn.
        destruct (requested_format rest), (shown rest); reflexivity.
      * rewrite (IH Hrest).
        destruct (requested_format rest), (shown rest); reflexivity.
Qed.

(** [parse_arguments] on arguments that [gnu_getopt] accepts, with a
    positional argument and no request for help. *)
Lemma parse_arguments_returns (env : environ) (argv0 : string)
      (rest : list string) (opts : Getopt.options) (address : list string)
      (a : string) (p : process) :
  getopt env rest = Ok (opts, address) ->
  last_item address = Some a ->
  asks_help opts = false ->
  parse_arguments env (argv0 :: rest) p
  = (Ok ({| prog := PyStr.basename argv0 |}, stored opts a), p).
Proof.
  unfold getopt. intros Hg Ha Hh.
  unfold parse_arguments, try_except, bind, lift. rewrite Hg, Ha.
  cbn [ret]. rewrite (handle_options_store _ _ Hh).
  unfold stored. cbn.
  destruct (requested_format opts), (shown opts); reflexivity.
Qed.


(** [parse_arguments] writes nothing when it returns. *)
Lemma handle_options_silent (parser : ArgparseFaux) (opts : Getopt.options)
      (args args' : Arguments.t) (p p' : process) :
  handle_options parser opts args p = (Ok args', p') -> p' = p.
Proof.
  destruct (asks_help opts) eqn:Hh.
  - rewrite (handle_options_help _ _ Hh). discriminate.
  - rewrite (handle_options_store _ _ Hh). intros H. inversion H. reflexivity.
Qed.

Lemma parse_arguments_silent (env : environ) (argv : list string)
      (parser : ArgparseFaux) (args : Arguments.t) (p p' : process) :
  parse_arguments env argv p = (Ok (parser, args), p') -> p' = p.
Proof.
  destruct argv as [|argv0 rest]; [discriminate|].
  unfold parse_arguments, try_except, bind, lift.
  destruct (Getopt.gnu_getopt env rest "hF:" ["help"; "format="; "show="])
    as [[opts address]|e].
  - destruct (last_item address) as [a|].
    + cbn [ret].
      destruct (handle_options _ opts _ p) as [[args'|e] p''] eqn:Hh.
      * apply handle_options_silent in Hh. intros H. inversion H. congruence.
      * discriminate.
    + rewrite error_exits. discriminate.
  - destruct e; discriminate.
Qed.

(** ** Fetching the tags *)

Lemma fetch_tags_offline (env : environ) (address description : string)
      (p : process) :
  http_get env (address ++ "/data") = TransportError description ->
  fetch_tags env address p
  = (Ok [], err (asked p (address ++ "/data")) (description ++ PyStr.nl)).
Proof.
  intros H. unfold fetch_tags, try_except, bind, perform. rewrite H.
  reflexivity.
Qed.

Lemma fetch_tags_body (env : environ) (address : string)
      (content : option json) (tags : Dict.t Tag.t) (p : process) :
  http_get env (address ++ "/data") = Body content ->
  decode_body content = Ok tags ->
  fetch_tags env address p = (Ok tags, asked p (address ++ "/data")).
Proof.
  intros H Hd. unfold fetch_tags, try_except, bind, perform, lift.
  rewrite H, Hd. reflexivity.
Qed.

(** [fetch_tags] never writes to standard output. *)
Lemma fetch_tags_stdout (env : environ) (address : string)
      (r : result (Dict.t Tag.t)) (p p' : process) :
  fetch_tags env address p = (r, p') -> stdout p' = stdout p.
Proof.
  unfold fetch_tags, try_except, bind, perform, lift.
  destruct (http_get env (address ++ "/data")) as [description|content].
  - cbn. intros H. inversion H. reflexivity.
  - destruct (decode_body content) as [tags|e].
    + intros H. inversion H. reflexivity.
    + destruct e; intros H; inversion H; reflexivity.
Qed.

(** ** From [run] to [render] *)

Lemma run_renders (env : environ) (argv : list string)
      (parser : ArgparseFaux) (args : Arguments.t) (address : string)
      (tags : Dict.t Tag.t) (p0 p : process) :
  parse_arguments env argv start = (Ok (parser, args), p0) ->
  Arguments.address args = Some address ->
  fetch_tags env address start = (Ok tags, p) ->
  run env argv start = render parser (choose_mac args tags) tags p.
Proof.
  intros Hp Ha Hf.
  assert (p0 = start) by (eapply parse_arguments_silent; eassumption).
  subst p0. unfold run.
  rewrite (bind_ok _ _ _ _ _ Hp). rewrite Ha.
  unfold bind at 1. cbn [ret].
  rewrite (bind_ok _ _ _ _ _ Hf). reflexivity.
Qed.

Lemma choose_mac_format (args : Arguments.t) (tags : Dict.t Tag.t) :
  Arguments.format (choose_mac args tags) = Arguments.format args.
Proof.
  unfold choose_mac.
  destruct (Dict.nonempty tags && negb (truthy (Arguments.mac args)));
    [destruct (Dict.first_key tags)|]; reflexivity.
Qed.

(** ** The claims on arguments and errors *)

(** C1, counterexample. The argument vector
    [ruuvitag-form -h -x http://localhost:8080] contains [-h], but
    [gnu_getopt] reads the whole vector before any option is looked at and
    rejects the unknown [-x]: the usage text is not printed, a complaint
    goes to standard error and the exit status is 2. *)
Lemma help_beside_unknown_option :
  In "-h" ["ruuvitag-form"; "-h"; "-x"; url]
  /\ main offline ["ruuvitag-form"; "-h"; "-x"; url]
     = (2, {| stdout := "";
              stderr := complaint {| prog := "ruuvitag-form" |}
                                  "option -x not recognized";
              requests := [] |}).
Proof.
  split.
  - right. left. reflexivity.
  - vm_compute. reflexivity.
Qed.

(** C1, amended. When [gnu_getopt] accepts the arguments, finds a
    positional argument among them and one of the options it reports is
    [-h] or [--help], the usage text and a line feed go to standard
    output, nothing goes to standard error, no request is made, and the
    exit status is 0. *)
Theorem help_printed (env : environ) (argv0 : string) (rest : list string)
        (opts : Getopt.options) (address : list string) :
  getopt env rest = Ok (opts, address) ->
  address <> [] ->
  asks_help opts = true ->
  main env (argv0 :: rest)
  = (0, {| stdout := helpstring {| prog := PyStr.basename argv0 |} ++ PyStr.nl;
           stderr := "";
           requests := [] |}).
Proof.
  unfold getopt. intros Hg Ha Hh.
  destruct (last_item_some address Ha) as [a Hlast].
  unfold main, run, parse_arguments, try_except, bind, lift.
  rewrite Hg, Hlast. cbn [ret].
  rewrite (handle_options_help _ _ Hh). reflexivity.
Qed.

Lemma help_printed_witness :
  main offline ["/usr/bin/ruuvitag-form"; "-F"; "influxdb"; url; "--help"]
  = (0, {| stdout := helpstring {| prog := "ruuvitag-form" |} ++ PyStr.nl;
           stderr := "";
           requests := [] |}).
Proof.
  apply (help_printed offline "/usr/bin/ruuvitag-form"
                      ["-F"; "influxdb"; url; "--help"]
                      [("-F", "influxdb"); ("--help", "")] [url]).
  - reflexivity.
  - discriminate.
  - reflexivity.
Defined.


(** The waybar branch for no tags: formatting the default record raises
    before anything is written. *)
Lemma render_waybar_empty (parser : ArgparseFaux) (args : Arguments.t)
      (p : process) :
  Arguments.format args = None \/ Arguments.format args = Some "waybar" ->
  render parser args [] p = (Raise ValueError, p).
Proof.
  intros [H|H]; unfold render, try_except, dispatch; rewrite H; reflexivity.
Qed.

(** C10. In the waybar branch for an empty TagSet the display string of
    the default record is asked for; its temperature is the placeholder
    string, which the format [.2f] rejects with [ValueError]. No handler
    catches it, so [render] ends in that exception and has written
    nothing. *)
Theorem fallback_never_written (parser : ArgparseFaux) (args : Arguments.t)
        (p : process) :
  Arguments.format args = None \/ Arguments.format args = Some "waybar" ->
  Tag.temperature Tag.default = PyStr "-"
  /\ Py.format_2f (Tag.temperature Tag.default) = Raise ValueError
  /\ Tag.repr Tag.default = Raise ValueError
  /\ waybar_fallback = Raise ValueError
  /\ render parser args [] p = (Raise ValueError, p).
Proof.
  intros H. repeat split; try reflexivity.
  apply render_waybar_empty. exact H.
Qed.

Lemma fallback_never_written_witness :
  render {| prog := "ruuvitag-form" |} (stored [] url) [] start
  = (Raise ValueError, start).
Proof.
  apply (fallback_never_written {| prog := "ruuvitag-form" |}
                                (stored [] url) start).
  left. reflexivity.
Defined.

(** C2, the behaviour of the code. When the arguments parse, the format is
    waybar or unset and the request meets a transport error, the
    description goes to standard error and the TagSet is empty, but the
    run then ends in [ValueError]: nothing reaches standard output and
    the exit status is 1. *)
Theorem transport_failure_crashes (env : environ) (argv : list string)
        (parser : ArgparseFaux) (args : Arguments.t) (p0 : process)
        (address description : string) :
  parse_arguments env argv start = (Ok (parser, args), p0) ->
  Arguments.address args = Some address ->
  Arguments.format args = None \/ Arguments.format args = Some "waybar" ->
  http_get env (address ++ "/data") = TransportError description ->
  run env argv start
  = (Raise ValueError,
     {| stdout := "";
        stderr := description ++ PyStr.nl;
        requests := [address ++ "/data"] |})
  /\ fst (main env argv) = 1.
Proof.
  intros Hp Ha Hf Hh.
  assert (Hrun : run env argv start
                 = (Raise ValueError,
                    {| stdout := "";
                       stderr := description ++ PyStr.nl;
                       requests := [address ++ "/data"] |})).
  { rewrite (run_renders env argv parser args address [] p0 _ Hp Ha
                         (fetch_tags_offline env address description start Hh)).
    change (choose_mac args []) with args.
    rewrite (render_waybar_empty _ _ _ Hf). reflexivity. }
  split; [exact Hrun|]. unfold main. rewrite Hrun. reflexivity.
Qed.

Lemma transport_failure_crashes_witness :
  run offline ["ruuvitag-form"; url] start
  = (Raise ValueError,
     {| stdout := "";
        stderr := refused ++ PyStr.nl;
        requests := [url ++ "/data"] |})
  /\ fst (main offline ["ruuvitag-form"; url]) = 1.
Proof.
  apply (transport_failure_crashes offline ["ruuvitag-form"; url]
           {| prog := "ruuvitag-form" |} (stored [] url) start url refused).
  - reflexivity.
  - reflexivity.
  - left. reflexivity.
  - reflexivity.
Defined.

(** C9. When the arguments parse, the stored format is neither [waybar]
    nor [influxdb] and the tags are fetched, [run] writes
    [<prog>: <format> is currently not supported] and the hint to try
    [--help] to standard error, nothing to standard output, and exits
    with status 2. *)
Theorem unsupported_format_rejected (env : environ) (argv : list string)
        (parser : ArgparseFaux) (args : Arguments.t) (p0 p : process)
        (address format : string) (tags : Dict.t Tag.t) :
  parse_arguments env argv start = (Ok (parser, args), p0) ->
  Arguments.address args = Some address ->
  Arguments.format args = Some format ->
  format <> "waybar" ->
  format <> "influxdb" ->
  fetch_tags env address start = (Ok tags, p) ->
  run env argv start
  = (Raise (SystemExit 2),
     err p (complaint parser (format ++ " is currently not supported")))
  /\ stdout p = ""
  /\ fst (main env argv) = 2.
Proof.
  intros Hp Ha Hf Hw Hi Hfetch.
  assert (Hrun : run env argv start
                 = (Raise (SystemExit 2),
                    err p (complaint parser
                             (format ++ " is currently not supported")))).
  { rewrite (run_renders env argv parser args address tags p0 p Hp Ha Hfetch).
    unfold render, try_except, dispatch.
    rewrite choose_mac_format, Hf.
    apply String.eqb_neq in Hw. apply String.eqb_neq in Hi.
    rewrite Hw, Hi. reflexivity. }
  split; [exact Hrun|]. split.
  - apply (fetch_tags_stdout _ _ _ _ _ Hfetch).
  - unfold main. rewrite Hrun. reflexivity.
Qed.

Lemma unsupported_format_rejected_witness :
  run (serving one_tag) ["ruuvitag-form"; "--format=XML"; url] start
  = (Raise (SystemExit 2),
     err (asked start (url ++ "/data"))
         (complaint {| prog := "ruuvitag-form" |}
                    "xml is currently not supported"))
  /\ stdout (asked start (url ++ "/data")) = ""
  /\ fst (main (serving one_tag) ["ruuvitag-form"; "--format=XML"; url]) = 2.
Proof.
  apply (unsupported_format_rejected
           (serving one_tag) ["ruuvitag-form"; "--format=XML"; url]
           {| prog := "ruuvitag-form" |} (stored [("--format", "XML")] url)
           start (asked start (url ++ "/data")) url "xml"
           (tags_of one_tag)).
  - reflexivity.
  - reflexivity.
  - reflexivity.
  - discriminate.
  - discriminate.
  - vm_compute. reflexivity.
Defined.


Lemma choose_mac_given (args : Arguments.t) (tags : Dict.t Tag.t)
      (c : ascii) (m : string) :
  Arguments.mac args = Some (String c m) -> choose_mac args tags = args.
Proof.
  intros H. unfold choose_mac. rewrite H. cbn [truthy negb].
  rewrite andb_false_r. reflexivity.
Qed.

(** C3, counterexample. In the influxdb format the MAC of [--show] is
    never looked up: with [--show=unknown] and a TagSet that holds one
    other tag, the seven lines of that tag are printed, nothing goes to
    standard error and the exit status is 0. *)
Lemma unknown_tag_in_influxdb :
  Dict.keys (tags_of one_tag) = ["AA:BB:CC:DD:EE:FF"]
  /\ Dict.get (tags_of one_tag) "UNKNOWN" = None
  /\ main (serving one_tag)
          ["ruuvitag-form"; "--show=unknown"; "--format=influxdb"; url]
     = (0,
        {| stdout :=
             "temperature,mac=AA:BB:CC:DD:EE:FF temp_C=21.5 1577836800000000000"
             ++ PyStr.nl ++
             "humidity,mac=AA:BB:CC:DD:EE:FF humidity_percent=40.2 1577836800000000000"
             ++ PyStr.nl ++
             "pressure,mac=AA:BB:CC:DD:EE:FF pressure_hPa=1013.0 1577836800000000000"
             ++ PyStr.nl ++
             "acceleration_x,mac=AA:BB:CC:DD:EE:FF acceleration_g=0.012 1577836800000000000"
             ++ PyStr.nl ++
             "acceleration_y,mac=AA:BB:CC:DD:EE:FF acceleration_g=-0.5 1577836800000000000"
             ++ PyStr.nl ++
             "acceleration_z,mac=AA:BB:CC:DD:EE:FF acceleration_g=1 1577836800000000000"
             ++ PyStr.nl ++
             "battery,mac=AA:BB:CC:DD:EE:FF battery_volt=2.995 1577836800000000000"
             ++ PyStr.nl;
           stderr := "";
           requests := [url ++ "/data"] |}).
Proof. repeat split; vm_compute; reflexivity. Qed.

(** C3, amended. In the waybar format (or with no format given), when the
    stored MAC of [--show] is not empty and is not a key of a TagSet that
    is not empty, [run] writes [<prog>: Tag "<mac>" does not exist] and the
    hint to try [--help] to standard error, nothing to standard output,
    and exits with status 2. *)
Theorem unknown_tag_rejected (env : environ) (argv : list string)
        (parser : ArgparseFaux) (args : Arguments.t) (p0 p : process)
        (address m : string) (tags : Dict.t Tag.t) :
  parse_arguments env argv start = (Ok (parser, args), p0) ->
  Arguments.address args = Some address ->
  Arguments.format args = None \/ Arguments.format args = Some "waybar" ->
  Arguments.mac args = Some m ->
  m <> "" ->
  fetch_tags env address start = (Ok tags, p) ->
  tags <> [] ->
  Dict.get tags m = None ->
  run env argv start
  = (Raise (SystemExit 2),
     err p (complaint parser ("Tag " ++ PyStr.dquote ++ m ++ PyStr.dquote
                              ++ " does not exist")))
  /\ stdout p = ""
  /\ fst (main env argv) = 2.
Proof.
  intros Hp Ha Hf Hm Hne Hfetch Htags Hget.
  assert (Hrun : run env argv start
                 = (Raise (SystemExit 2),
                    err p (complaint parser
                             ("Tag " ++ PyStr.dquote ++ m ++ PyStr.dquote
                              ++ " does not exist")))).
  { rewrite (run_renders env argv parser args address tags p0 p Hp Ha Hfetch).
    destruct m as [|c m]; [contradiction|].
    rewrite (choose_mac_given _ _ _ _ Hm).
    destruct tags as [|kv tags]; [contradiction|].
    assert (Hw : waybar args (kv :: tags) p = (Raise (KeyError (String c m)), p)).
    { unfold waybar, waybar_object, lookup, bind, lift.
      cbn [Dict.nonempty]. rewrite Hm, Hget. reflexivity. }
    unfold render, try_except, dispatch.
    destruct Hf as [Hf|Hf]; rewrite Hf; rewrite ?String.eqb_refl, Hw, Hm;
      reflexivity. }
  split; [exact Hrun|]. split.
  - apply (fetch_tags_stdout _ _ _ _ _ Hfetch).
  - unfold main. rewrite Hrun. reflexivity.
Qed.

Lemma unknown_tag_rejected_witness :
  run (serving one_tag) ["ruuvitag-form"; "--show=unknown"; url] start
  = (Raise (SystemExit 2),
     err (asked start (url ++ "/data"))
         (complaint {| prog := "ruuvitag-form" |}
                    ("Tag " ++ PyStr.dquote ++ "UNKNOWN" ++ PyStr.dquote
                     ++ " does not exist")))
  /\ stdout (asked start (url ++ "/data")) = ""
  /\ fst (main (serving one_tag) ["ruuvitag-form"; "--show=unknown"; url]) = 2.
Proof.
  apply (unknown_tag_rejected
           (serving one_tag) ["ruuvitag-form"; "--show=unknown"; url]
           {| prog := "ruuvitag-form" |} (stored [("--show", "unknown")] url)
           start (asked start (url ++ "/data")) url "UNKNOWN"
           (tags_of one_tag)).
  - reflexivity.
  - reflexivity.
  - left. reflexivity.
  - reflexivity.
  - discriminate.
  - vm_compute. reflexivity.
  - vm_compute. discriminate.
  - vm_compute. reflexivity.
Defined.

(** C4, counterexample. [--show=] gives an empty value; the stored MAC is
    the empty string, which counts as no MAC, so with a TagSet that is not
    empty the effective MAC is the first key and not the value of
    [--show]: the first tag is displayed. *)
Lemma empty_show_value :
  getopt (serving one_tag) ["--show="; url] = Ok ([("--show", "")], [url])
  /\ shown [("--show", "")] = Some ""
  /\ Arguments.mac
       (choose_mac (stored [("--show", "")] url)
                   (tags_of one_tag))
     = Some "AA:BB:CC:DD:EE:FF"
  /\ main (serving one_tag) ["ruuvitag-form"; "--show="; url]
     = (0,
        {| stdout :=
             Json.dumps
               (PyDict [("text", PyStr "21.50C 40.20% 1013.00hPa");
                        ("tooltip", PyStr "Sauna: 21.50C 40.20% 1013.00hPa");
                        ("class", PyStr "ruuvitag");
                        ("percentage", PyFloat (Float.of_decimal false 402 (-1)))]);
           stderr := "";
           requests := [url ++ "/data"] |}).
Proof. repeat split; vm_compute; reflexivity. Qed.

(** C4, amended. When the arguments parse, the effective MAC is the value
    of the last [--show] in upper case if that value is not empty;
    otherwise (no [--show], or an empty value) it is the first key of the
    TagSet in iteration order if the TagSet is not empty; otherwise it
    stays what was stored: nothing, or the empty string. *)
Theorem effective_mac (env : environ) (argv0 : string) (rest : list string)
        (opts : Getopt.options) (address : list string) (a : string) :
  getopt env rest = Ok (opts, address) ->
  last_item address = Some a ->
  asks_help opts = false ->
  exists (parser : ArgparseFaux) (args : Arguments.t),
    parse_arguments env (argv0 :: rest) start = (Ok (parser, args), start)
    /\ forall tags : Dict.t Tag.t,
        Arguments.mac (choose_mac args tags)
        = match shown opts with
          | Some (String c v) => Some (PyStr.upper (String c v))
          | Some EmptyString =>
              match Dict.first_key tags with
              | Some first => Some first
              | None => Some ""
              end
          | None => Dict.first_key tags
          end.
Proof.
  intros Hg Ha Hh.
  exists {| prog := PyStr.basename argv0 |}, (stored opts a).
  split.
  - apply (parse_arguments_returns env argv0 rest opts address a start);
      assumption.
  - intros tags. unfold choose_mac, stored. cbn [Arguments.mac].
    destruct (shown opts) as [[|c v]|]; cbn [option_map PyStr.upper PyStr.map truthy negb].
    + rewrite andb_true_r. destruct tags as [|[k t] tags]; reflexivity.
    + rewrite andb_false_r. reflexivity.
    + rewrite andb_true_r. destruct tags as [|[k t] tags]; reflexivity.
Qed.

Lemma effective_mac_witness :
  exists (parser : ArgparseFaux) (args : Arguments.t),
    parse_arguments (serving two_tags)
                    ["ruuvitag-form"; "--show=11:22:33:44:55:6a"; url] start
    = (Ok (parser, args), start)
    /\ forall tags : Dict.t Tag.t,
        Arguments.mac (choose_mac args tags) = Some "11:22:33:44:55:6A".
Proof.
  exact (effective_mac (serving two_tags) "ruuvitag-form"
                       ["--show=11:22:33:44:55:6a"; url]
                       [("--show", "11:22:33:44:55:6a")] [url] url
                       eq_refl eq_refl eq_refl).
Defined.


(** ** The display string *)

Lemma round_half_even_nearest (a d : Z) :
  0 <= a -> 0 < d ->
  0 <= Float.round_half_even a d
  /\ Z.abs (2 * a - 2 * (Float.round_half_even a d * d)) <= d.
Proof.
  intros Ha Hd. unfold Float.round_half_even.
  pose proof (Z.div_mod a d ltac:(lia)) as Hdm.
  pose proof (Z.mod_pos_bound a d Hd) as Hr.
  pose proof (Z.div_pos a d Ha Hd) as Hq.
  destruct (Z.compare_spec (2 * (a mod d)) d) as [He|Hl|Hg].
  - destruct (Z.even (a / d)); split; nia.
  - split; nia.
  - split; nia.
Qed.

Lemma magnitude_positive (m : positive) (e : Z) :
  0 <= fst (Float.magnitude m e) /\ 0 < snd (Float.magnitude m e).
Proof.
  unfold Float.magnitude. destruct e as [|k|k]; cbn [fst snd].
  - lia.
  - pose proof (Z.pow_pos_nonneg 2 (Zpos k)). lia.
  - pose proof (Z.pow_pos_nonneg 2 (Zpos k)). lia.
Qed.

Lemma hundredths_nearest (m : positive) (e : Z) :
  nearest_hundredths m e (Float.hundredths m e).
Proof.
  unfold nearest_hundredths, Float.hundredths.
  destruct (magnitude_positive m e) as [Hn Hd].
  destruct (Float.magnitude m e) as [n d]. cbn [fst snd] in *.
  apply round_half_even_nearest; lia.
Qed.

(** [format(f, '.2f')] writes [f] with two decimals. *)
Lemma format_2f_two_decimals (f : spec_float) :
  two_decimals f (Float.format_2f f).
Proof.
  destruct f as [s|s| |s m e]; cbn [two_decimals Float.format_2f];
    try reflexivity.
  exists (Float.hundredths m e). split; [apply hundredths_nearest|reflexivity].
Qed.

Lemma format_2f_number (v : pyval) (f : spec_float) :
  number v = Some f -> Py.format_2f v = Ok (Float.format_2f f).
Proof.
  destruct v as [|b|n|g|s|l|d]; cbn [number]; try discriminate.
  - unfold Py.format_2f, Py.float_of_int.
    destruct (Float.is_finite (Float.of_Z n)); [|discriminate].
    intros H. inversion H. reflexivity.
  - intros H. inversion H. reflexivity.
Qed.

(** C5. For a record whose temperature, humidity and pressure are numbers,
    the display string is the three of them, in that order, each written
    in fixed-point notation with two decimals (the nearest hundredths),
    followed by [C ], [% ] and [hPa]. *)
Theorem display_string (tag : Tag.t) (t h p : spec_float) :
  number (Tag.temperature tag) = Some t ->
  number (Tag.humidity tag) = Some h ->
  number (Tag.pressure tag) = Some p ->
  Tag.repr tag
  = Ok (Float.format_2f t ++ "C " ++ Float.format_2f h ++ "% "
        ++ Float.format_2f p ++ "hPa")
  /\ two_decimals t (Float.format_2f t)
  /\ two_decimals h (Float.format_2f h)
  /\ two_decimals p (Float.format_2f p).
Proof.
  intros Ht Hh Hp. split.
  - unfold Tag.repr.
    rewrite (format_2f_number _ _ Ht), (format_2f_number _ _ Hh),
      (format_2f_number _ _ Hp).
    reflexivity.
  - repeat split; apply format_2f_two_decimals.
Qed.

(** The record of the specification: 21.5, 40.2 and 1013.0 give
    [21.50C 40.20% 1013.00hPa], as the display string and as the [text]
    of the waybar object. *)
Lemma display_string_witness :
  Tag.repr (tag_at "2020-01-01T00:00:00+00:00")
  = Ok "21.50C 40.20% 1013.00hPa"
  /\ main (serving one_tag) ["ruuvitag-form"; url]
     = (0,
        {| stdout :=
             Json.dumps
               (PyDict [("text", PyStr "21.50C 40.20% 1013.00hPa");
                        ("tooltip", PyStr "Sauna: 21.50C 40.20% 1013.00hPa");
                        ("class", PyStr "ruuvitag");
                        ("percentage", PyFloat (Float.of_decimal false 402 (-1)))]);
           stderr := "";
           requests := [url ++ "/data"] |}).
Proof.
  split.
  - exact (proj1 (display_string (tag_at "2020-01-01T00:00:00+00:00")
                                 (Float.of_decimal false 215 (-1))
                                 (Float.of_decimal false 402 (-1))
                                 (Float.of_decimal false 10130 (-1))
                                 eq_refl eq_refl eq_refl)).
  - vm_compute. reflexivity.
Defined.


(** ** The influxdb format *)

Lemma append_assoc (a b c : string) : (a ++ b) ++ c = a ++ (b ++ c).
Proof.
  induction a as [|ch a IH]; cbn [append].
  - reflexivity.
  - rewrite IH. reflexivity.
Qed.

Lemma out_out (p : process) (a b : string) : out (out p a) b = out p (a ++ b).
Proof. unfold out. cbn [stdout stderr requests]. rewrite append_assoc. reflexivity. Qed.

Lemma out_nothing (p : process) : out p "" = p.
Proof.
  destruct p as [o e r]. unfold out. cbn [stdout stderr requests].
  f_equal. induction o as [|c o IH]; cbn [append]; [reflexivity|].
  rewrite IH. reflexivity.
Qed.

Lemma printed_app (l1 l2 : list string) :
  printed (List.app l1 l2) = printed l1 ++ printed l2.
Proof.
  induction l1 as [|line l1 IH]; cbn [List.app printed append].
  - reflexivity.
  - rewrite IH, !append_assoc. reflexivity.
Qed.

(** One turn of the loop: the seven records of the tag are printed with
    its timestamp, then the loop goes on. *)
Lemma influxdb_record (mac : string) (tag : Tag.t) (stamp : Z)
      (rest : list (string * Tag.t)) (p : process) :
  nanoseconds tag = Ok stamp ->
  influxdb ((mac, tag) :: rest) p
  = influxdb rest (out p (printed (record_lines mac tag stamp))).
Proof.
  intros H. cbn [influxdb]. unfold bind at 1. unfold lift at 1. rewrite H.
  unfold bind, print, write. f_equal.
  unfold out, record_lines, line_protocol.
  cbn [stdout stderr requests printed]. f_equal.
  repeat rewrite append_assoc. reflexivity.
Qed.

Lemma influxdb_all (items : list (string * Tag.t)) (stamps : list Z) :
  Forall2 (fun kv stamp => nanoseconds (snd kv) = Ok stamp) items stamps ->
  forall p : process,
    influxdb items p = (Ok tt, out p (printed (all_lines items stamps))).
Proof.
  induction 1 as [|[mac tag] stamp items stamps Hs _ IH]; intros p.
  - cbn [influxdb all_lines printed]. rewrite out_nothing. reflexivity.
  - cbn [snd] in Hs. rewrite (influxdb_record _ _ _ _ _ Hs), IH.
    cbn [all_lines]. rewrite out_out, printed_app. reflexivity.
Qed.

Lemma all_lines_length (items : list (string * Tag.t)) (stamps : list Z) :
  Forall2 (fun kv stamp => nanoseconds (snd kv) = Ok stamp) items stamps ->
  List.length (all_lines items stamps) = (7 * List.length items)%nat.
Proof.
  induction 1 as [|[mac tag] stamp items stamps _ _ IH].
  - reflexivity.
  - cbn [all_lines]. rewrite List.length_app, IH. cbn [record_lines List.length].
    lia.
Qed.

(** C7. In the influxdb format, when the time of every record parses,
    [render] prints for each record of the TagSet, in iteration order,
    the seven records of the line protocol, in the order temperature,
    humidity, pressure, acceleration_x, acceleration_y, acceleration_z,
    battery, each of the shape
    [<measurement>,mac=<mac> <field>=<value> <timestamp>] and the seven
    with the timestamp of the record; it prints nothing else and
    returns. *)
Theorem influxdb_lines (parser : ArgparseFaux) (args : Arguments.t)
        (tags : Dict.t Tag.t) (stamps : list Z) (p : process) :
  Arguments.format args = Some "influxdb" ->
  Forall2 (fun kv stamp => nanoseconds (snd kv) = Ok stamp) tags stamps ->
  render parser args tags p
  = (Ok tt, out p (printed (all_lines tags stamps)))
  /\ List.length (all_lines tags stamps) = (7 * List.length tags)%nat.
Proof.
  intros Hf Hs. split.
  - unfold render, try_except, dispatch. rewrite Hf.
    change (String.eqb "influxdb" "waybar") with false.
    change (String.eqb "influxdb" "influxdb") with true.
    cbn iota. rewrite (influxdb_all _ _ Hs). reflexivity.
  - apply all_lines_length. exact Hs.
Qed.

Lemma influxdb_lines_witness :
  render {| prog := "ruuvitag-form" |} (stored [("-F", "influxdb")] url)
         (tags_of two_tags) start
  = (Ok tt,
     out start (printed (all_lines (tags_of two_tags)
                                   [1577836800000000000; -123000])))
  /\ List.length (all_lines (tags_of two_tags) [1577836800000000000; -123000])
     = (7 * List.length (tags_of two_tags))%nat.
Proof.
  apply (influxdb_lines {| prog := "ruuvitag-form" |}
                        (stored [("-F", "influxdb")] url)
                        (tags_of two_tags)
                        [1577836800000000000; -123000] start).
  - reflexivity.
  - apply Forall2_cons; [vm_compute; reflexivity|].
    apply Forall2_cons; [vm_compute; reflexivity|].
    apply Forall2_nil.
Defined.

(** ** The timestamp *)

Lemma binary_round_aux_sign (m e : Z) (l : location) :
  not_negative (binary_round_aux Float.prec Float.emax false m e l).
Proof.
  unfold binary_round_aux.
  destruct (shr_fexp Float.prec Float.emax m e l) as [mrs' e'].
  destruct (shr_fexp Float.prec Float.emax _ e' loc_Exact) as [mrs'' e''].
  destruct (shr_m mrs'') as [|q|q]; cbn [not_negative]; try reflexivity.
  destruct (Z.leb e'' (Float.emax - Float.prec)); reflexivity.
Qed.

Lemma true_div_sign (a : Z) (b : positive) :
  0 <= a -> not_negative (Float.true_div a b).
Proof.
  intros Ha. destruct a as [|q|q]; cbn [Float.true_div].
  - reflexivity.
  - unfold Float.of_ratio.
    destruct (SFdiv_core_binary _ _ _ _ _ _) as [[m e] l].
    apply binary_round_aux_sign.
  - lia.
Qed.

Lemma mul_billion_sign (f : spec_float) :
  not_negative f -> not_negative (Float.mul f (Float.of_Z 1000000000)).
Proof.
  change (Float.of_Z 1000000000)
    with (S754_finite false 8388608000000000 (-23)).
  destruct f as [s|s| |s m e]; cbn [not_negative]; intros H; subst;
    try reflexivity.
  unfold Float.mul, SFmul. cbn [xorb]. apply binary_round_aux_sign.
Qed.

(** On a float that is not negative [int] and the floor agree. *)
Lemma int_of_float_floor (f : spec_float) :
  not_negative f -> int_of_float f = int_floor f.
Proof.
  destruct f as [s|s| |s m e]; cbn [not_negative]; intros H; subst;
    reflexivity.
Qed.

(** C8, counterexample. For a time 123 microseconds before the epoch the
    seconds are [-0.000123] and their product with [10 ^ 9] is the float
    just below [-123000]: [int] truncates it to [-123000], which is what
    the program prints, and its floor is [-123001]. *)
Lemma floor_before_epoch :
  nanoseconds (tag_at "1969-12-31T23:59:59.999877") = Ok (-123000)
  /\ floor_nanoseconds (tag_at "1969-12-31T23:59:59.999877") = Ok (-123001).
Proof. split; vm_compute; reflexivity. Qed.

(** C8, amended. When the time of a record parses, the timestamp is the
    seconds between the epoch and the fields of the time read as UTC
    (whatever offset was parsed is overwritten, not applied), as the float
    quotient of the microseconds by [10 ** 6], times [10 ^ 9] in float
    arithmetic, truncated toward zero by [int]; from the epoch on this is
    the floor; and the seven lines of the record carry this timestamp. *)
Theorem timestamp_truncated (mac : string) (tag : Tag.t)
        (d : Datetime.datetime) (rest : list (string * Tag.t)) (p : process) :
  Datetime.fromisoformat (Tag.time tag) = Ok d ->
  nanoseconds tag
  = int_of_float
      (Float.mul (Float.true_div (Datetime.field_microseconds d) 1000000)
                 (Float.of_Z 1000000000))
  /\ (0 <= Datetime.field_microseconds d ->
      nanoseconds tag = floor_nanoseconds tag)
  /\ (forall stamp : Z,
        nanoseconds tag = Ok stamp ->
        influxdb ((mac, tag) :: rest) p
        = influxdb rest (out p (printed (record_lines mac tag stamp)))).
Proof.
  intros Hd.
  assert (Hn : nanoseconds tag
               = int_of_float
                   (Float.mul
                      (Float.true_div (Datetime.field_microseconds d) 1000000)
                      (Float.of_Z 1000000000))).
  { unfold nanoseconds. rewrite Hd. cbn [rbind].
    unfold Datetime.timestamp, Datetime.replace_tzinfo, Datetime.utc.
    cbn [Datetime.tzinfo rbind].
    unfold Datetime.field_microseconds.
    cbn [Datetime.year Datetime.month Datetime.day Datetime.hour
         Datetime.minute Datetime.second Datetime.microsecond].
    rewrite Z.sub_0_r. reflexivity. }
  split; [exact Hn|]. split.
  - intros Hpos. rewrite Hn. unfold floor_nanoseconds. rewrite Hd.
    cbn [rbind].
    unfold Datetime.timestamp, Datetime.replace_tzinfo, Datetime.utc.
    cbn [Datetime.tzinfo rbind].
    unfold Datetime.field_microseconds in *.
    cbn [Datetime.year Datetime.month Datetime.day Datetime.hour
         Datetime.minute Datetime.second Datetime.microsecond].
    rewrite Z.sub_0_r.
    apply int_of_float_floor, mul_billion_sign, true_div_sign. exact Hpos.
  - intros stamp Hs. apply influxdb_record. exact Hs.
Qed.

(** The time of the specification: [2020-01-01T00:00:00+00:00] gives
    1577836800000000000 on the seven lines. *)
Lemma timestamp_truncated_witness :
  nanoseconds (tag_at "2020-01-01T00:00:00+00:00") = Ok 1577836800000000000
  /\ floor_nanoseconds (tag_at "2020-01-01T00:00:00+00:00")
     = Ok 1577836800000000000
  /\ influxdb [("AA:BB:CC:DD:EE:FF", tag_at "2020-01-01T00:00:00+00:00")] start
     = (Ok tt,
        out start
            (printed (record_lines "AA:BB:CC:DD:EE:FF"
                                   (tag_at "2020-01-01T00:00:00+00:00")
                                   1577836800000000000))).
Proof.
  destruct (timestamp_truncated
              "AA:BB:CC:DD:EE:FF" (tag_at "2020-01-01T00:00:00+00:00")
              {| Datetime.year := 2020; Datetime.month := 1;
                 Datetime.day := 1; Datetime.hour := 0;
                 Datetime.minute := 0; Datetime.second := 0;
                 Datetime.microsecond := 0; Datetime.tzinfo := Some 0 |}
              [] start eq_refl) as [Hn [Hfloor Hlines]].
  assert (Hv : nanoseconds (tag_at "2020-01-01T00:00:00+00:00")
               = Ok 1577836800000000000) by (vm_compute; reflexivity).
  split; [exact Hv|]. split.
  - rewrite <- (Hfloor ltac:(vm_compute; discriminate)). exact Hv.
  - exact (Hlines 1577836800000000000 Hv).
Defined.


(** ** The waybar format *)

Lemma tooltip_lines_of (items : list (string * Tag.t)) (displays : list string) :
  Forall2 (fun kv display => Tag.repr (snd kv) = Ok display) items displays ->
  tooltip_lines items = Ok (tooltip_of items displays).
Proof.
  induction 1 as [|[mac tag] display items displays Hd _ IH].
  - reflexivity.
  - cbn [snd] in Hd. cbn [tooltip_lines tooltip_of]. rewrite Hd, IH.
    reflexivity.
Qed.

(** The waybar object of a TagSet that is not empty: when the effective
    MAC is a key and every record has a display string, [render] writes
    one JSON object whose [text] is the display string of the record of
    the effective MAC, whose [tooltip] is the lines [<name>: <display>] of
    all records in iteration order joined by a line feed, whose [class] is
    [ruuvitag] and whose [percentage] is the humidity of that record. *)
Theorem waybar_object_written (parser : ArgparseFaux) (args : Arguments.t)
        (tags : Dict.t Tag.t) (m display : string) (shown : Tag.t)
        (displays : list string) (p : process) :
  Arguments.format args = None \/ Arguments.format args = Some "waybar" ->
  tags <> [] ->
  Arguments.mac args = Some m ->
  Dict.get tags m = Some shown ->
  Tag.repr shown = Ok display ->
  Forall2 (fun kv d => Tag.repr (snd kv) = Ok d) tags displays ->
  render parser args tags p
  = (Ok tt,
     out p (Json.dumps
              (PyDict [("text", PyStr display);
                       ("tooltip",
                        PyStr (PyStr.join PyStr.nl (tooltip_of tags displays)));
                       ("class", PyStr "ruuvitag");
                       ("percentage", Tag.humidity shown)]))).
Proof.
  intros Hf Hne Hm Hget Hd Hall.
  assert (Hw : waybar args tags p
               = (Ok tt,
                  out p (Json.dumps
                           (PyDict [("text", PyStr display);
                                    ("tooltip",
                                     PyStr (PyStr.join PyStr.nl
                                              (tooltip_of tags displays)));
                                    ("class", PyStr "ruuvitag");
                                    ("percentage", Tag.humidity shown)])))).
  { unfold waybar. destruct tags as [|kv tags]; [contradiction|].
    cbn [Dict.nonempty]. unfold waybar_object, lookup.
    rewrite Hm, Hget. cbn [rbind]. rewrite Hd. cbn [rbind].
    rewrite (tooltip_lines_of _ _ Hall). reflexivity. }
  unfold render, try_except, dispatch.
  destruct Hf as [Hf|Hf]; rewrite Hf; rewrite ?String.eqb_refl, Hw;
    reflexivity.
Qed.

Lemma waybar_object_written_witness :
  render {| prog := "ruuvitag-form" |}
         (choose_mac (stored [] url) (tags_of two_tags))
         (tags_of two_tags) start
  = (Ok tt,
     out start
         (Json.dumps
            (PyDict [("text", PyStr "21.50C 40.20% 1013.00hPa");
                     ("tooltip",
                      PyStr ("Sauna: 21.50C 40.20% 1013.00hPa" ++ PyStr.nl
                             ++ "Attic: 20.00C 55.50% 999.12hPa"));
                     ("class", PyStr "ruuvitag");
                     ("percentage", PyFloat (Float.of_decimal false 402 (-1)))]))).
Proof.
  apply (waybar_object_written
           {| prog := "ruuvitag-form" |}
           (choose_mac (stored [] url) (tags_of two_tags))
           (tags_of two_tags) "AA:BB:CC:DD:EE:FF" "21.50C 40.20% 1013.00hPa"
           (match Dict.get (tags_of two_tags) "AA:BB:CC:DD:EE:FF" with
            | Some tag => tag
            | None => Tag.default
            end)
           ["21.50C 40.20% 1013.00hPa"; "20.00C 55.50% 999.12hPa"] start).
  - left. reflexivity.
  - vm_compute. discriminate.
  - vm_compute. reflexivity.
  - vm_compute. reflexivity.
  - vm_compute. reflexivity.
  - apply Forall2_cons; [vm_compute; reflexivity|].
    apply Forall2_cons; [vm_compute; reflexivity|].
    apply Forall2_nil.
Defined.

(** C6, at the failing input. The server answers with the empty object,
    so the TagSet is empty; in the waybar format the run ends in
    [ValueError] before [json.dump] is called: no object, with or without
    [percentage], reaches standard output, and the exit status is 1. *)
Theorem empty_tagset_nothing_written :
  decode_body (Some (JObject [])) = Ok []
  /\ run (serving (JObject [])) ["ruuvitag-form"; url] start
     = (Raise ValueError, asked start (url ++ "/data"))
  /\ main (serving (JObject [])) ["ruuvitag-form"; url]
     = (1, {| stdout := ""; stderr := ""; requests := [url ++ "/data"] |}).
Proof. repeat split; vm_compute; reflexivity. Qed.

(** ** More on the arguments *)

(** No positional argument: the complaint of [parse_arguments] and exit
    status 2, whatever options [gnu_getopt] has found; no request is
    made. *)
Theorem missing_address_rejected (env : environ) (argv0 : string)
        (rest : list string) (opts : Getopt.options) :
  getopt env rest = Ok (opts, []) ->
  main env (argv0 :: rest)
  = (2, {| stdout := "";
           stderr := complaint {| prog := PyStr.basename argv0 |}
                       "Need to specify an url to a ruuvitag-hark server.";
           requests := [] |}).
Proof.
  unfold getopt. intros Hg.
  unfold main, run, parse_arguments, try_except, bind, lift.
  rewrite Hg. reflexivity.
Qed.

Lemma missing_address_rejected_witness :
  main offline ["ruuvitag-form"; "-F"; "waybar"]
  = (2, {| stdout := "";
           stderr := complaint {| prog := "ruuvitag-form" |}
                       "Need to specify an url to a ruuvitag-hark server.";
           requests := [] |}).
Proof.
  exact (missing_address_rejected offline "ruuvitag-form" ["-F"; "waybar"]
                                  [("-F", "waybar")] eq_refl).
Defined.

(** Arguments that [gnu_getopt] rejects: its message and exit status 2. *)
Theorem getopt_error_rejected (env : environ) (argv0 : string)
        (rest : list string) (msg : string) :
  getopt env rest = Raise (GetoptError msg) ->
  main env (argv0 :: rest)
  = (2, {| stdout := "";
           stderr := complaint {| prog := PyStr.basename argv0 |} msg;
           requests := [] |}).
Proof.
  unfold getopt. intros Hg.
  unfold main, run, parse_arguments, try_except, bind, lift.
  rewrite Hg. reflexivity.
Qed.

Lemma getopt_error_rejected_witness :
  main offline ["ruuvitag-form"; "--format"]
  = (2, {| stdout := "";
           stderr := complaint {| prog := "ruuvitag-form" |}
                       "option --format requires argument";
           requests := [] |}).
Proof.
  exact (getopt_error_rejected offline "ruuvitag-form" ["--format"]
                               "option --format requires argument" eq_refl).
Defined.

(** ** The loop of [gnu_getopt] never runs out of fuel *)

Lemma do_shorts_args (optstring shortopts : string) :
  forall (opts opts' : Getopt.options) (args args' : list string),
    Getopt.do_shorts opts optstring shortopts args = Ok (opts', args') ->
    (List.length args' <= List.length args)%nat.
Proof.
  induction optstring as [|opt optstring IH]; intros opts opts' args args'.
  - cbn [Getopt.do_shorts]. intros H. inversion H. lia.
  - cbn [Getopt.do_shorts]. unfold rbind.
    destruct (Getopt.short_has_arg opt shortopts) as [[|]|e];
      [| apply IH | discriminate].
    destruct (String.eqb optstring "").
    + destruct args as [|optarg args0]; [discriminate|].
      intros H. inversion H. cbn [List.length]. lia.
    + intros H. inversion H. lia.
Qed.

Lemma do_longs_args (opt : string) (longopts : list string)
      (opts opts' : Getopt.options) (args args' : list string) :
  Getopt.do_longs opts opt longopts args = Ok (opts', args') ->
  (List.length args' <= List.length args)%nat.
Proof.
  unfold Getopt.do_longs, rbind.
  destruct (PyStr.find "=" opt) as [i|];
    (destruct (Getopt.long_has_args _ longopts) as [[[|] name]|e];
     [| |discriminate]).
  - intros H. inversion H. lia.
  - discriminate.
  - destruct args as [|optarg args0]; [discriminate|].
    intros H. inversion H. cbn [List.length]. lia.
  - intros H. inversion H. lia.
Qed.

(** Any fuel above the number of arguments gives the same result: the
    loop ends before the fuel does. *)
Lemma scan_fuel (all_options_first : bool) (shortopts : string)
      (longopts : list string) (fuel : nat) :
  forall (fuel' : nat) (opts : Getopt.options) (prog_args args : list string),
    (List.length args < fuel)%nat ->
    (List.length args < fuel')%nat ->
    Getopt.scan fuel all_options_first shortopts longopts opts prog_args args
    = Getopt.scan fuel' all_options_first shortopts longopts opts prog_args
                  args.
Proof.
  induction fuel as [|fuel IH]; intros fuel' opts prog_args args H H'.
  - lia.
  - destruct fuel' as [|fuel']; [lia|].
    cbn [Getopt.scan]. destruct args as [|arg rest]; [reflexivity|].
    cbn [List.length] in H, H'.
    destruct (String.eqb arg "--"); [reflexivity|].
    destruct (PyStr.startswith arg "--").
    + unfold rbind.
      destruct (Getopt.do_longs opts (PyStr.drop 2 arg) longopts rest)
        as [[opts' args']|e] eqn:Hl; [|reflexivity].
      apply do_longs_args in Hl. apply IH; lia.
    + destruct (PyStr.startswith arg "-" && negb (String.eqb arg "-")).
      * unfold rbind.
        destruct (Getopt.do_shorts opts (PyStr.drop 1 arg) shortopts rest)
          as [[opts' args']|e] eqn:Hs; [|reflexivity].
        apply do_shorts_args in Hs. apply IH; lia.
      * destruct all_options_first; [reflexivity|]. apply IH; lia.
Qed.

(** ** What [parse_arguments] stores *)

(** When [gnu_getopt] accepts the arguments and no option asks for help,
    [parse_arguments] writes nothing and returns the base name of the
    program, the last positional argument as address, the value of the
    last [--show] in upper case, and the value of the last [-F] or
    [--format] in lower case. *)
Theorem arguments_stored (env : environ) (argv0 : string)
        (rest : list string) (opts : Getopt.options) (address : list string)
        (a : string) :
  getopt env rest = Ok (opts, address) ->
  last_item address = Some a ->
  asks_help opts = false ->
  parse_arguments env (argv0 :: rest) start
  = (Ok ({| prog := PyStr.basename argv0 |},
         {| Arguments.format := option_map PyStr.lower (requested_format opts);
            Arguments.mac := option_map PyStr.upper (shown opts);
            Arguments.address := Some a |}),
     start).
Proof.
  intros Hg Ha Hh.
  apply (parse_arguments_returns env argv0 rest opts address a start);
    assumption.
Qed.

Lemma arguments_stored_witness :
  parse_arguments offline
                  ["/usr/local/bin/ruuvitag-form"; "first"; "-F"; "InfluxDB";
                   "--show=aa:bb"; "--sh"; "c0:ff:ee"; "second"] start
  = (Ok ({| prog := "ruuvitag-form" |},
         {| Arguments.format := Some "influxdb";
            Arguments.mac := Some "C0:FF:EE";
            Arguments.address := Some "second" |}),
     start).
Proof.
  exact (arguments_stored offline "/usr/local/bin/ruuvitag-form"
           ["first"; "-F"; "InfluxDB"; "--show=aa:bb"; "--sh"; "c0:ff:ee";
            "second"]
           [("-F", "InfluxDB"); ("--show", "aa:bb"); ("--show", "c0:ff:ee")]
           ["first"; "second"] "second" eq_refl eq_refl eq_refl).
Defined.


(** ** Errors in the data *)

Lemma tag_of_data_raises (data : pyval) (e : exn) :
  tag_of_data data = Raise e -> data_error e.
Proof.
  unfold tag_of_data, rbind.
  assert (Hg : forall k e', Py.getitem data k = Raise e' -> data_error e').
  { intros k e'. unfold Py.getitem.
    destruct data as [|b|n|f|s|l|d]; try (intros H; inversion H; exact I).
    destruct (Dict.get d k); intros H; inversion H. exact I. }
  repeat match goal with
         | |- match Py.getitem data ?k with _ => _ end = _ -> _ =>
             let H := fresh "H" in
             destruct (Py.getitem data k) eqn:H;
             [clear H | intros H'; inversion H'; subst; eapply Hg; exact H]
         end.
  discriminate.
Qed.

Lemma collect_tags_raises (items : list (string * pyval)) :
  forall (tags : Dict.t Tag.t) (e : exn),
    collect_tags items tags = Raise e -> data_error e.
Proof.
  induction items as [|[mac data] items IH]; intros tags e.
  - discriminate.
  - cbn [collect_tags]. unfold rbind.
    destruct (tag_of_data data) as [tag|e'] eqn:Ht.
    + apply IH.
    + intros H. inversion H. subst. apply (tag_of_data_raises _ _ Ht).
Qed.

Lemma decode_body_raises (body : option json) (e : exn) :
  decode_body body = Raise e -> data_error e.
Proof.
  unfold decode_body, rbind. destruct body as [j|].
  - destruct (Json.loads j) as [|b|n|f|s|l|d];
      try (intros H; inversion H; exact I).
    apply collect_tags_raises.
  - intros H. inversion H. exact I.
Qed.

(** A body that cannot be read (not JSON, not an object, an entry that is
    not an object or lacks a field) ends the run in the exception raised
    while reading it: [fetch_tags] catches transport errors only and the
    handler of [run] does not cover the call. The exit status is 1 and
    nothing is written. *)
Theorem decode_failure_uncaught (env : environ) (argv : list string)
        (parser : ArgparseFaux) (args : Arguments.t) (p0 : process)
        (address : string) (content : option json) (e : exn) :
  parse_arguments env argv start = (Ok (parser, args), p0) ->
  Arguments.address args = Some address ->
  http_get env (address ++ "/data") = Body content ->
  decode_body content = Raise e ->
  run env argv start = (Raise e, asked start (address ++ "/data"))
  /\ fst (main env argv) = 1.
Proof.
  intros Hp Ha Hh Hd.
  assert (p0 = start) by (eapply parse_arguments_silent; eassumption).
  subst p0.
  pose proof (decode_body_raises _ _ Hd) as He.
  assert (Hf : fetch_tags env address start
               = (Raise e, asked start (address ++ "/data"))).
  { unfold fetch_tags, try_except, bind, perform, lift. rewrite Hh, Hd.
    destruct e; try reflexivity; contradiction. }
  assert (Hrun : run env argv start
                 = (Raise e, asked start (address ++ "/data"))).
  { unfold run. rewrite (bind_ok _ _ _ _ _ Hp). rewrite Ha.
    unfold bind at 1. cbn [ret].
    rewrite (bind_raise _ _ _ _ _ Hf). reflexivity. }
  split; [exact Hrun|].
  unfold main. rewrite Hrun. destruct e; try reflexivity; contradiction.
Qed.

Lemma decode_failure_uncaught_witness :
  run (serving (JObject [("AA:BB:CC:DD:EE:FF", timeless)]))
      ["ruuvitag-form"; url] start
  = (Raise (KeyError "time"), asked start (url ++ "/data"))
  /\ fst (main (serving (JObject [("AA:BB:CC:DD:EE:FF", timeless)]))
               ["ruuvitag-form"; url]) = 1.
Proof.
  apply (decode_failure_uncaught
           (serving (JObject [("AA:BB:CC:DD:EE:FF", timeless)]))
           ["ruuvitag-form"; url] {| prog := "ruuvitag-form" |}
           (stored [] url) start url
           (Some (JObject [("AA:BB:CC:DD:EE:FF", timeless)]))
           (KeyError "time")).
  - reflexivity.
  - reflexivity.
  - reflexivity.
  - vm_compute. reflexivity.
Defined.

(** A time that does not parse ends the influxdb loop in the exception of
    the parser: the records of the tags before it are printed, its own
    and the later ones are not. *)
Theorem influxdb_bad_time (before : list (string * Tag.t)) (stamps : list Z)
        (mac : string) (tag : Tag.t) (after : list (string * Tag.t))
        (e : exn) :
  Forall2 (fun kv stamp => nanoseconds (snd kv) = Ok stamp) before stamps ->
  nanoseconds tag = Raise e ->
  forall p : process,
    influxdb (List.app before ((mac, tag) :: after)) p
    = (Raise e, out p (printed (all_lines before stamps))).
Proof.
  intros Hb He.
  induction Hb as [|[mac0 tag0] stamp items stamps0 Hs _ IH]; intros p.
  - cbn [List.app influxdb all_lines printed]. rewrite out_nothing.
    unfold bind, lift. rewrite He. reflexivity.
  - cbn [snd] in Hs. cbn [List.app].
    rewrite (influxdb_record _ _ _ _ _ Hs), IH.
    cbn [all_lines]. rewrite out_out, printed_app. reflexivity.
Qed.

Lemma influxdb_bad_time_witness :
  influxdb [("AA:BB:CC:DD:EE:FF", tag_at "2020-01-01T00:00:00+00:00");
            ("11:22:33:44:55:66", tag_at "?");
            ("77:88:99:AA:BB:CC", tag_at "2020-01-01T00:00:01+00:00")] start
  = (Raise ValueError,
     out start
         (printed (record_lines "AA:BB:CC:DD:EE:FF"
                                (tag_at "2020-01-01T00:00:00+00:00")
                                1577836800000000000))).
Proof.
  apply (influxdb_bad_time
           [("AA:BB:CC:DD:EE:FF", tag_at "2020-01-01T00:00:00+00:00")]
           [1577836800000000000] "11:22:33:44:55:66" (tag_at "?")
           [("77:88:99:AA:BB:CC", tag_at "2020-01-01T00:00:01+00:00")]
           ValueError).
  - apply Forall2_cons; [vm_compute; reflexivity|]. apply Forall2_nil.
  - vm_compute. reflexivity.
Defined.

(** A transport error in the influxdb format: the description goes to
    standard error, no line is printed and the run returns, with exit
    status 0. *)
Theorem transport_failure_influxdb (env : environ) (argv : list string)
        (parser : ArgparseFaux) (args : Arguments.t) (p0 : process)
        (address description : string) :
  parse_arguments env argv start = (Ok (parser, args), p0) ->
  Arguments.address args = Some address ->
  Arguments.format args = Some "influxdb" ->
  http_get env (address ++ "/data") = TransportError description ->
  main env argv
  = (0, {| stdout := "";
           stderr := description ++ PyStr.nl;
           requests := [address ++ "/data"] |}).
Proof.
  intros Hp Ha Hf Hh. unfold main.
  rewrite (run_renders env argv parser args address [] p0 _ Hp Ha
                       (fetch_tags_offline env address description start Hh)).
  change (choose_mac args []) with args.
  unfold render, try_except, dispatch. rewrite Hf. reflexivity.
Qed.

Lemma transport_failure_influxdb_witness :
  main offline ["ruuvitag-form"; "--format=influxdb"; url]
  = (0, {| stdout := "";
           stderr := refused ++ PyStr.nl;
           requests := [url ++ "/data"] |}).
Proof.
  apply (transport_failure_influxdb
           offline ["ruuvitag-form"; "--format=influxdb"; url]
           {| prog := "ruuvitag-form" |}
           (stored [("--format", "influxdb")] url) start url refused);
    reflexivity.
Defined.


(** ** What each stage can raise *)

Lemma rbind_raise {A B : Type} (r : result A) (k : A -> result B) (e : exn) :
  rbind r k = Raise e ->
  r = Raise e \/ exists a : A, r = Ok a /\ k a = Raise e.
Proof.
  destruct r as [a|e']; cbn [rbind]; intros H.
  - right. exists a. split; [reflexivity|exact H].
  - left. inversion H. reflexivity.
Qed.

(** [gnu_getopt] raises nothing but [GetoptError]. *)
Lemma short_has_arg_raises (opt : ascii) (shortopts : string) (e : exn) :
  Getopt.short_has_arg opt shortopts = Raise e ->
  exists msg : string, e = GetoptError msg.
Proof.
  induction shortopts as [|c rest IH]; cbn [Getopt.short_has_arg].
  - intros H. inversion H. eauto.
  - destruct (Ascii.eqb opt c && negb (Ascii.eqb c ":")); [discriminate|].
    exact IH.
Qed.

Lemma do_shorts_raises (optstring shortopts : string) :
  forall (opts : Getopt.options) (args : list string) (e : exn),
    Getopt.do_shorts opts optstring shortopts args = Raise e ->
    exists msg : string, e = GetoptError msg.
Proof.
  induction optstring as [|opt optstring IH]; intros opts args e.
  - discriminate.
  - cbn [Getopt.do_shorts]. unfold rbind.
    destruct (Getopt.short_has_arg opt shortopts) as [[|]|e'] eqn:Hs.
    + destruct (String.eqb optstring ""); [|discriminate].
      destruct args; [|discriminate]. intros H. inversion H. eauto.
    + apply IH.
    + intros H. inversion H. subst. apply (short_has_arg_raises _ _ _ Hs).
Qed.

Lemma long_has_args_raises (opt : string) (longopts : list string) (e : exn) :
  Getopt.long_has_args opt longopts = Raise e ->
  exists msg : string, e = GetoptError msg.
Proof.
  unfold Getopt.long_has_args.
  destruct (filter _ longopts) as [|unique others].
  - intros H. inversion H. eauto.
  - destruct (existsb _ _); [discriminate|].
    destruct (existsb _ _); [discriminate|].
    destruct others.
    + destruct (PyStr.endswith unique "="); discriminate.
    + intros H. inversion H. eauto.
Qed.

Lemma do_longs_raises (opts : Getopt.options) (opt : string)
      (longopts : list string) (args : list string) (e : exn) :
  Getopt.do_longs opts opt longopts args = Raise e ->
  exists msg : string, e = GetoptError msg.
Proof.
  unfold Getopt.do_longs, rbind.
  destruct (PyStr.find "=" opt) as [i|];
    (destruct (Getopt.long_has_args _ longopts) as [[[|] name]|e'] eqn:Hl;
     [| |intros H; inversion H; subst; apply (long_has_args_raises _ _ _ Hl)]).
  - discriminate.
  - intros H. inversion H. eauto.
  - destruct args; [|discriminate]. intros H. inversion H. eauto.
  - discriminate.
Qed.

Lemma scan_raises (all_options_first : bool) (shortopts : string)
      (longopts : list string) (fuel : nat) :
  forall (opts : Getopt.options) (prog_args args : list string) (e : exn),
    Getopt.scan fuel all_options_first shortopts longopts opts prog_args args
    = Raise e ->
    exists msg : string, e = GetoptError msg.
Proof.
  induction fuel as [|fuel IH]; intros opts prog_args args e.
  - discriminate.
  - cbn [Getopt.scan]. destruct args as [|arg rest]; [discriminate|].
    destruct (String.eqb arg "--"); [discriminate|].
    destruct (PyStr.startswith arg "--").
    + unfold rbind.
      destruct (Getopt.do_longs opts (PyStr.drop 2 arg) longopts rest)
        as [[opts' args']|e'] eqn:Hl.
      * apply IH.
      * intros H. inversion H. subst. apply (do_longs_raises _ _ _ _ _ Hl).
    + destruct (PyStr.startswith arg "-" && negb (String.eqb arg "-")).
      * unfold rbind.
        destruct (Getopt.do_shorts opts (PyStr.drop 1 arg) shortopts rest)
          as [[opts' args']|e'] eqn:Hs.
        -- apply IH.
        -- intros H. inversion H. subst. apply (do_shorts_raises _ _ _ _ _ Hs).
      * destruct all_options_first; [discriminate|]. apply IH.
Qed.

Lemma getopt_raises (env : environ) (rest : list string) (e : exn) :
  getopt env rest = Raise e -> exists msg : string, e = GetoptError msg.
Proof.
  unfold getopt, Getopt.gnu_getopt.
  destruct (PyStr.startswith "hF:" "+"); [|destruct (posixly_correct env)];
    apply scan_raises.
Qed.

(** The four ways [parse_arguments] ends. *)
Lemma parse_arguments_cases (env : environ) (argv0 : string)
      (rest : list string) (p : process) :
  let parser := {| prog := PyStr.basename argv0 |} in
  (exists (opts : Getopt.options) (address : list string) (a : string),
      getopt env rest = Ok (opts, address)
      /\ last_item address = Some a
      /\ asks_help opts = false
      /\ parse_arguments env (argv0 :: rest) p
         = (Ok (parser, stored opts a), p))
  \/ (exists (opts : Getopt.options) (address : list string),
        getopt env rest = Ok (opts, address)
        /\ address <> []
        /\ asks_help opts = true
        /\ parse_arguments env (argv0 :: rest) p
           = (Raise (SystemExit 0), out p (helpstring parser ++ PyStr.nl)))
  \/ (exists msg : string,
        parse_arguments env (argv0 :: rest) p
        = (Raise (SystemExit 2), err p (complaint parser msg))).
Proof.
  intros parser.
  destruct (getopt env rest) as [[opts address]|e] eqn:Hg.
  - destruct (last_item address) as [a|] eqn:Ha.
    + destruct (asks_help opts) eqn:Hh.
      * right. left. exists opts, address.
        repeat split; try reflexivity; try assumption.
        -- intros ->. discriminate.
        -- unfold getopt in Hg.
           unfold parse_arguments, try_except, bind, lift.
           rewrite Hg, Ha. cbn [ret].
           rewrite (handle_options_help _ _ Hh). reflexivity.
      * left. exists opts, address, a.
        repeat split; try reflexivity; try assumption.
        apply (parse_arguments_returns env argv0 rest opts address a p);
          assumption.
    + right. right.
      exists "Need to specify an url to a ruuvitag-hark server.".
      unfold getopt in Hg.
      unfold parse_arguments, try_except, bind, lift. rewrite Hg, Ha.
      reflexivity.
  - right. right. destruct (getopt_raises _ _ _ Hg) as [msg ->].
    exists msg. unfold getopt in Hg.
    unfold parse_arguments, try_except, bind, lift. rewrite Hg. reflexivity.
Qed.

(** Formatting and the reading of a time raise [ValueError], [TypeError]
    or [OverflowError] only. *)
Lemma format_2f_raises (v : pyval) (e : exn) :
  Py.format_2f v = Raise e -> format_error e.
Proof.
  destruct v as [|b|n|f|s|l|d]; cbn [Py.format_2f];
    try (intros H; inversion H; exact I).
  unfold Py.float_of_int. destruct (Float.is_finite (Float.of_Z n));
    intros H; inversion H. exact I.
Qed.

Lemma repr_raises (tag : Tag.t) (e : exn) :
  Tag.repr tag = Raise e -> format_error e.
Proof.
  unfold Tag.repr. intros H.
  apply rbind_raise in H. destruct H as [H|[t [_ H]]];
    [exact (format_2f_raises _ _ H)|].
  apply rbind_raise in H. destruct H as [H|[h [_ H]]];
    [exact (format_2f_raises _ _ H)|].
  apply rbind_raise in H. destruct H as [H|[q [_ H]]];
    [exact (format_2f_raises _ _ H)|discriminate].
Qed.

Lemma tooltip_lines_raises (items : list (string * Tag.t)) (e : exn) :
  tooltip_lines items = Raise e -> format_error e.
Proof.
  induction items as [|[mac tag] items IH]; cbn [tooltip_lines].
  - discriminate.
  - intros H. apply rbind_raise in H. destruct H as [H|[d [_ H]]];
      [exact (repr_raises _ _ H)|].
    apply rbind_raise in H. destruct H as [H|[ls [_ H]]];
      [exact (IH H)|discriminate].
Qed.

Ltac raise_step H :=
  cbv beta in H;
  match type of H with
  | rbind ?r _ = Raise _ =>
      apply rbind_raise in H; destruct H as [H|[? [_ H]]]
  | Raise _ = Raise _ => inversion H; subst; clear H
  | Ok _ = Raise _ => discriminate H
  | (if ?b then _ else _) = Raise _ => destruct b
  | (match ?x with _ => _ end) = Raise _ => destruct x
  end.

Lemma digits_n_raises (n : nat) (s : string) (e : exn) :
  Datetime.digits_n n s = Raise e -> format_error e.
Proof.
  unfold Datetime.digits_n. intros H. repeat raise_step H; exact I.
Qed.

Lemma expect_raises (c : ascii) (s : string) (e : exn) :
  Datetime.expect c s = Raise e -> format_error e.
Proof.
  unfold Datetime.expect. intros H. repeat raise_step H; exact I.
Qed.

Lemma parse_isoformat_date_raises (dtstr : string) (e : exn) :
  Datetime.parse_isoformat_date dtstr = Raise e -> format_error e.
Proof.
  unfold Datetime.parse_isoformat_date. intros H.
  raise_step H; [exact (digits_n_raises _ _ _ H)|].
  raise_step H; [exact (expect_raises _ _ _ H)|].
  raise_step H; [exact (digits_n_raises _ _ _ H)|].
  raise_step H; [exact (expect_raises _ _ _ H)|].
  raise_step H; [exact (digits_n_raises _ _ _ H)|].
  discriminate.
Qed.

Lemma parse_components_raises (left : nat) :
  forall (tstr : string) (e : exn),
    Datetime.parse_components left tstr = Raise e -> format_error e.
Proof.
  induction left as [|left IH]; intros tstr e.
  - discriminate.
  - cbn [Datetime.parse_components]. intros H.
    raise_step H; [exact (digits_n_raises _ _ _ H)|].
    destruct (PyStr.drop 2 tstr) as [|next rest]; [discriminate|].
    destruct left as [|left']; [discriminate|].
    destruct (Ascii.eqb next ":"); [|inversion H; exact I].
    raise_step H; [exact (IH _ _ H)|].
    raise_step H. discriminate.
Qed.

Lemma parse_hh_mm_ss_ff_raises (tstr : string) (e : exn) :
  Datetime.parse_hh_mm_ss_ff tstr = Raise e -> format_error e.
Proof.
  unfold Datetime.parse_hh_mm_ss_ff.
  destruct (Datetime.parse_components 3 tstr) as [[comps rest]|e'] eqn:Hc;
    cbn [rbind];
    [|intros H; inversion H; subst; exact (parse_components_raises _ _ _ Hc)].
  destruct rest as [|c frac]; cbn [rbind]; [discriminate|].
  destruct (Ascii.eqb c "."); [|intros H; inversion H; exact I].
  destruct (String.length frac) as [|[|[|[|[|[|[|n]]]]]]]; cbn [rbind];
    try (intros H; inversion H; exact I).
  - destruct (Datetime.digits_n 3 frac) as [v|e'] eqn:Hd; cbn [rbind];
      [discriminate|].
    intros H. inversion H. subst. exact (digits_n_raises _ _ _ Hd).
  - destruct (Datetime.digits_n 6 frac) as [v|e'] eqn:Hd; cbn [rbind];
      [discriminate|].
    intros H. inversion H. subst. exact (digits_n_raises _ _ _ Hd).
Qed.

Lemma parse_isoformat_time_raises (tstr : string) (e : exn) :
  Datetime.parse_isoformat_time tstr = Raise e -> format_error e.
Proof.
  unfold Datetime.parse_isoformat_time.
  destruct (String.length tstr <? 2)%nat; [intros H; inversion H; exact I|].
  cbv zeta.
  destruct (PyStr.find "-" tstr) as [i|];
    [|destruct (PyStr.find "+" tstr) as [i|]].
  1, 2: destruct (Datetime.parse_hh_mm_ss_ff (PyStr.take i tstr))
      as [[[[hh mm] ss] us]|e'] eqn:Hp; cbn [rbind];
    [|intros H; inversion H; subst; exact (parse_hh_mm_ss_ff_raises _ _ Hp)];
    destruct ((String.length (PyStr.drop (S i) tstr) =? 5)
              || (String.length (PyStr.drop (S i) tstr) =? 8)
              || (String.length (PyStr.drop (S i) tstr) =? 15))%nat;
    [|intros H; inversion H; exact I];
    destruct (Datetime.parse_hh_mm_ss_ff (PyStr.drop (S i) tstr))
      as [[[[th tm] ts] tu]|e'] eqn:Hz; cbn [rbind];
    [|intros H; inversion H; subst; exact (parse_hh_mm_ss_ff_raises _ _ Hz)];
    destruct (_ && _); [discriminate|]; intros H; inversion H; exact I.
  destruct (Datetime.parse_hh_mm_ss_ff tstr) as [[[[hh mm] ss] us]|e'] eqn:Hp;
    cbn [rbind]; [discriminate|].
  intros H. inversion H. subst. exact (parse_hh_mm_ss_ff_raises _ _ Hp).
Qed.

Lemma new_raises (y m d hh mm ss us : Z) (tz : option Z) (e : exn) :
  Datetime.new y m d hh mm ss us tz = Raise e -> format_error e.
Proof.
  unfold Datetime.new. destruct (_ && _); [discriminate|].
  intros H. inversion H. exact I.
Qed.

Lemma fromisoformat_raises (v : pyval) (e : exn) :
  Datetime.fromisoformat v = Raise e -> format_error e.
Proof.
  destruct v as [|b|n|f|s|l|d]; cbn [Datetime.fromisoformat];
    try (intros H; inversion H; exact I).
  destruct (String.length s <? 10)%nat; [intros H; inversion H; exact I|].
  destruct (Datetime.parse_isoformat_date (PyStr.take 10 s))
    as [[[y m] d]|e'] eqn:Hd; cbn [rbind];
    [|intros H; inversion H; subst; exact (parse_isoformat_date_raises _ _ Hd)].
  destruct (PyStr.drop 10 s) as [|sep tstr]; [apply new_raises|].
  destruct (Datetime.parse_isoformat_time tstr)
    as [[[[[hh mm] ss] us] tz]|e'] eqn:Ht; cbn [rbind];
    [apply new_raises|].
  intros H. inversion H. subst. exact (parse_isoformat_time_raises _ _ Ht).
Qed.

Lemma int_of_float_raises (f : spec_float) (e : exn) :
  int_of_float f = Raise e -> format_error e.
Proof.
  unfold int_of_float. destruct f as [s|s| |s m x]; cbn [Float.trunc];
    try (intros H; inversion H; exact I).
  destruct (Float.magnitude m x). discriminate.
Qed.

Lemma nanoseconds_raises (tag : Tag.t) (e : exn) :
  nanoseconds tag = Raise e -> format_error e.
Proof.
  unfold nanoseconds.
  destruct (Datetime.fromisoformat (Tag.time tag)) as [d|e'] eqn:Hd;
    cbn [rbind];
    [|intros H; inversion H; subst; exact (fromisoformat_raises _ _ Hd)].
  cbn [Datetime.timestamp Datetime.replace_tzinfo Datetime.tzinfo rbind].
  apply int_of_float_raises.
Qed.

(** ** How each stage leaves the process *)

Lemma append_empty (s : string) : s ++ "" = s.
Proof.
  induction s as [|c s IH]; cbn [append]; [reflexivity|].
  rewrite IH. reflexivity.
Qed.

(** [fetch_tags] makes exactly one request, to [<address>/data], writes
    nothing to standard output, and raises nothing but an error in the
    data. *)
Lemma fetch_tags_trace (env : environ) (address : string)
      (r : result (Dict.t Tag.t)) (p p' : process) :
  fetch_tags env address p = (r, p') ->
  stdout p' = stdout p
  /\ requests p' = List.app (requests p) [address ++ "/data"]
  /\ (exists s : string, stderr p' = stderr p ++ s)
  /\ match r with
     | Ok _ => True
     | Raise e => data_error e
     end.
Proof.
  unfold fetch_tags, try_except, bind, perform, lift.
  destruct (http_get env (address ++ "/data")) as [description|content].
  - cbn. intros H. inversion H. subst. repeat split.
    exists (description ++ PyStr.nl). reflexivity.
  - destruct (decode_body content) as [tags|e] eqn:Hd.
    + intros H. inversion H. subst. repeat split.
      exists "". cbn. symmetry. apply append_empty.
    + pose proof (decode_body_raises _ _ Hd) as He.
      assert (Hs : exists s : string,
                 stderr (asked p (address ++ "/data")) = stderr p ++ s).
      { exists "". cbn. symmetry. apply append_empty. }
      destruct e; try contradiction; intros H; inversion H; subst;
        repeat split; assumption.
Qed.

(** The influxdb loop only prints, and raises nothing but the error of a
    time that does not parse. *)
Lemma influxdb_trace (items : list (string * Tag.t)) :
  forall (p p' : process) (r : result unit),
    influxdb items p = (r, p') ->
    (exists text : string, p' = out p text)
    /\ match r with
       | Ok _ => True
       | Raise e => format_error e
       end.
Proof.
  induction items as [|[mac tag] items IH]; intros p p' r.
  - cbn [influxdb]. unfold ret. intros H. inversion H. subst. split; [|exact I].
    exists "". symmetry. apply out_nothing.
  - destruct (nanoseconds tag) as [stamp|e] eqn:Hn.
    + rewrite (influxdb_record _ _ _ _ _ Hn). intros H.
      destruct (IH _ _ _ H) as [[text ->] Hr]. split; [|exact Hr].
      rewrite out_out. eauto.
    + cbn [influxdb]. unfold bind at 1. unfold lift at 1. rewrite Hn.
      intros H. inversion H. subst. split.
      * exists "". symmetry. apply out_nothing.
      * exact (nanoseconds_raises _ _ Hn).
Qed.

(** The waybar branch writes its object or raises before writing. *)
Lemma waybar_trace (args : Arguments.t) (tags : Dict.t Tag.t)
      (p p' : process) (r : result unit) :
  waybar args tags p = (r, p') ->
  (r = Ok tt /\ exists text : string, p' = out p text)
  \/ (exists e : exn,
         r = Raise e /\ p' = p
         /\ (format_error e \/ exists k : string, e = KeyError k)).
Proof.
  unfold waybar. destruct (Dict.nonempty tags).
  - unfold bind, lift.
    destruct (waybar_object args tags) as [obj|e] eqn:Hw.
    + unfold write. intros H. inversion H. left. eauto.
    + intros H. inversion H. subst. right. exists e. repeat split.
      unfold waybar_object, lookup in Hw.
      apply rbind_raise in Hw. destruct Hw as [Hw|[shown [_ Hw]]].
      { right. destruct (Arguments.mac args) as [k|].
        - destruct (Dict.get tags k); inversion Hw. eauto.
        - inversion Hw. eauto. }
      apply rbind_raise in Hw. destruct Hw as [Hw|[text [_ Hw]]];
        [left; exact (repr_raises _ _ Hw)|].
      apply rbind_raise in Hw. destruct Hw as [Hw|[lines [_ Hw]]];
        [left; exact (tooltip_lines_raises _ _ Hw)|].
      apply rbind_raise in Hw. destruct Hw as [Hw|[shown' [_ Hw]]];
        [|discriminate].
      right. destruct (Arguments.mac args) as [k|].
      * destruct (Dict.get tags k); inversion Hw. eauto.
      * inversion Hw. eauto.
  - intros H. inversion H. subst. right. exists ValueError.
    repeat split. left. exact I.
Qed.

(** The three ways [render] ends: it returns after writing to standard
    output; it raises a formatting error after writing to standard output
    (nothing, in the waybar format); or it complains on standard error and
    exits with status 2, standard output untouched. *)
Lemma render_trace (parser : ArgparseFaux) (args : Arguments.t)
      (tags : Dict.t Tag.t) (p p' : process) (r : result unit) :
  render parser args tags p = (r, p') ->
  (r = Ok tt /\ exists text : string, p' = out p text)
  \/ (exists e : exn,
         r = Raise e /\ format_error e /\ exists text : string, p' = out p text)
  \/ (exists msg : string,
         r = Raise (SystemExit 2) /\ p' = err p (complaint parser msg)).
Proof.
  assert (Hway :
             try_except (waybar args tags)
               (fun e =>
                  match e with
                  | KeyError _ =>
                      Some (error parser
                              ("Tag " ++ PyStr.dquote
                               ++ str_of_mac (Arguments.mac args)
                               ++ PyStr.dquote ++ " does not exist"))
                  | _ => None
                  end) p = (r, p') ->
             (r = Ok tt /\ exists text : string, p' = out p text)
             \/ (exists e : exn,
                    r = Raise e /\ format_error e
                    /\ exists text : string, p' = out p text)
             \/ (exists msg : string,
                    r = Raise (SystemExit 2)
                    /\ p' = err p (complaint parser msg))).
  { unfold try_except. destruct (waybar args tags p) as [r0 p0] eqn:Hw.
    destruct (waybar_trace _ _ _ _ _ Hw) as [[-> [text ->]]|[e [-> [-> He]]]].
    - intros H. inversion H. left. eauto.
    - destruct He as [He|[k ->]].
      + destruct e; try contradiction; intros H; inversion H; subst;
          right; left; eexists; (split; [reflexivity|]); (split; [exact I|]);
          exists ""; symmetry; apply out_nothing.
      + rewrite error_exits. intros H. inversion H. right. right. eauto. }
  unfold render, dispatch.
  destruct (Arguments.format args) as [format|].
  - destruct (String.eqb format "waybar").
    + exact Hway.
    + destruct (String.eqb format "influxdb").
      * unfold try_except.
        destruct (influxdb tags p) as [r0 p0] eqn:Hi.
        destruct (influxdb_trace _ _ _ _ Hi) as [[text ->] Hr].
        destruct r0 as [[]|e].
        -- intros H. inversion H. left. eauto.
        -- destruct e; try contradiction; intros H; inversion H; subst;
             right; left; eexists; (split; [reflexivity|]); (split; [exact I|]);
             eauto.
      * unfold try_except. rewrite error_exits. intros H. inversion H.
        right. right. eauto.
  - exact Hway.
Qed.

(** ** The whole run *)

(** How a run with a program name ends: with the usage text, with a
    complaint about the arguments, or, after the one request, with an
    error in the data or as [render] ends. *)
Lemma run_trace (env : environ) (argv0 : string) (rest : list string)
      (r : result unit) (p' : process) :
  run env (argv0 :: rest) start = (r, p') ->
  let parser := {| prog := PyStr.basename argv0 |} in
  (r = Raise (SystemExit 0)
   /\ p' = out start (helpstring parser ++ PyStr.nl))
  \/ (exists msg : string,
         r = Raise (SystemExit 2) /\ p' = err start (complaint parser msg))
  \/ (exists (opts : Getopt.options) (address : list string) (a : string)
             (p1 : process),
         getopt env rest = Ok (opts, address)
         /\ last_item address = Some a
         /\ stdout p1 = ""
         /\ requests p1 = [a ++ "/data"]
         /\ ((exists e : exn, r = Raise e /\ data_error e /\ p' = p1)
             \/ (r = Ok tt /\ exists text : string, p' = out p1 text)
             \/ (exists e : exn,
                    r = Raise e /\ format_error e
                    /\ exists text : string, p' = out p1 text)
             \/ (exists msg : string,
                    r = Raise (SystemExit 2)
                    /\ p' = err p1 (complaint parser msg)))).
Proof.
  intros Hrun parser.
  destruct (parse_arguments_cases env argv0 rest start)
    as [[opts [address [a [Hg [Ha [Hh Hp]]]]]]
       |[[opts [address [Hg [Hne [Hh Hp]]]]]|[msg Hp]]].
  - right. right.
    destruct (fetch_tags env a start) as [rf p1] eqn:Hf.
    destruct (fetch_tags_trace _ _ _ _ _ Hf) as [Hout [Hreq [_ Hrf]]].
    exists opts, address, a, p1. repeat split; try assumption.
    destruct rf as [tags|e].
    + right.
      rewrite (run_renders env (argv0 :: rest) _ _ a tags start p1 Hp
                           eq_refl Hf) in Hrun.
      exact (render_trace _ _ _ _ _ _ Hrun).
    + left. exists e. unfold run in Hrun.
      rewrite (bind_ok _ _ _ _ _ Hp) in Hrun. cbn [stored Arguments.address] in Hrun.
      unfold bind at 1 in Hrun. cbn [ret] in Hrun.
      rewrite (bind_raise _ _ _ _ _ Hf) in Hrun. inversion Hrun.
      repeat split. exact Hrf.
  - left. unfold run in Hrun. rewrite (bind_raise _ _ _ _ _ Hp) in Hrun.
    inversion Hrun. split; reflexivity.
  - right. left. exists msg. unfold run in Hrun.
    rewrite (bind_raise _ _ _ _ _ Hp) in Hrun. inversion Hrun.
    split; reflexivity.
Qed.

Lemma data_error_status {A : Type} (e : exn) :
  data_error e -> exit_status (@Raise A e) = 1.
Proof. destruct e; try contradiction; reflexivity. Qed.

Lemma format_error_status {A : Type} (e : exn) :
  format_error e -> exit_status (@Raise A e) = 1.
Proof. destruct e; try contradiction; reflexivity. Qed.

(** The exit status is 0, 1 or 2, whatever the arguments, the environment
    and the answer of the server. *)
Theorem exit_status_range (env : environ) (argv : list string) :
  fst (main env argv) = 0 \/ fst (main env argv) = 1 \/ fst (main env argv) = 2.
Proof.
  destruct argv as [|argv0 rest]; [right; left; reflexivity|].
  unfold main. destruct (run env (argv0 :: rest) start) as [r p'] eqn:Hrun.
  cbn [fst].
  destruct (run_trace _ _ _ _ _ Hrun)
    as [[-> _]|[[msg [-> _]]|[opts [address [a [p1 [_ [_ [_ [_ H]]]]]]]]]].
  - left. reflexivity.
  - right. right. reflexivity.
  - destruct H as [[e [-> [He _]]]|[[-> _]|[[e [-> [He _]]]|[msg [-> _]]]]].
    + right. left. apply data_error_status. exact He.
    + left. reflexivity.
    + right. left. apply format_error_status. exact He.
    + right. right. reflexivity.
Qed.

(** A run that exits with status 2 has written nothing to standard output,
    and the last thing on standard error is the complaint of
    [ArgparseFaux.error]: the program name, the message and the hint. *)
Theorem usage_error_trace (env : environ) (argv : list string) :
  fst (main env argv) = 2 ->
  stdout (snd (main env argv)) = ""
  /\ exists before msg : string,
      stderr (snd (main env argv))
      = before ++ complaint {| prog := PyStr.basename (hd "" argv) |} msg.
Proof.
  destruct argv as [|argv0 rest]; [discriminate|].
  unfold main. destruct (run env (argv0 :: rest) start) as [r p'] eqn:Hrun.
  cbn [fst snd hd].
  destruct (run_trace _ _ _ _ _ Hrun)
    as [[-> _]|[[msg [-> ->]]|[opts [address [a [p1 [_ [_ [Hout [_ H]]]]]]]]]].
  - discriminate.
  - intros _. split; [reflexivity|]. exists "", msg. reflexivity.
  - destruct H as [[e [-> [He _]]]|[[-> _]|[[e [-> [He _]]]|[msg [-> ->]]]]].
    + rewrite (data_error_status e He). discriminate.
    + discriminate.
    + rewrite (format_error_status e He). discriminate.
    + intros _. split; [exact Hout|]. exists (stderr p1), msg. reflexivity.
Qed.

Lemma usage_error_trace_witness :
  stdout (snd (main offline ["ruuvitag-form"; "-F"; "csv"; url])) = ""
  /\ exists before msg : string,
      stderr (snd (main offline ["ruuvitag-form"; "-F"; "csv"; url]))
      = before ++ complaint {| prog := "ruuvitag-form" |} msg.
Proof.
  apply (usage_error_trace offline ["ruuvitag-form"; "-F"; "csv"; url]).
  vm_compute. reflexivity.
Defined.

(** A run makes no request at all, or exactly one: to [<address>/data],
    where the address is the last positional argument [gnu_getopt]
    finds. *)
Theorem at_most_one_request (env : environ) (argv : list string) :
  requests (snd (main env argv)) = []
  \/ exists (opts : Getopt.options) (address : list string) (a : string),
      getopt env (tl argv) = Ok (opts, address)
      /\ last_item address = Some a
      /\ requests (snd (main env argv)) = [a ++ "/data"].
Proof.
  destruct argv as [|argv0 rest]; [left; reflexivity|].
  unfold main. destruct (run env (argv0 :: rest) start) as [r p'] eqn:Hrun.
  cbn [snd tl].
  destruct (run_trace _ _ _ _ _ Hrun)
    as [[_ ->]|[[msg [_ ->]]|[opts [address [a [p1 [Hg [Ha [_ [Hreq H]]]]]]]]]].
  - left. reflexivity.
  - left. reflexivity.
  - right. exists opts, address, a. repeat split; try assumption.
    destruct H as [[e [_ [_ ->]]]|[[_ [text ->]]|[[e [_ [_ [text ->]]]]|[msg [_ ->]]]]];
      exact Hreq.
Qed.


(** ** Dictionaries: insertion and lookup *)

Lemma get_in_keys {V : Type} (d : Dict.t V) (k : string) (v : V) :
  Dict.get d k = Some v -> In k (Dict.keys d).
Proof.
  induction d as [|[k' v'] d IH]; cbn [Dict.get Dict.keys List.map fst].
  - discriminate.
  - destruct (String.eqb k k') eqn:Hk.
    + apply String.eqb_eq in Hk. intros _. left. symmetry. exact Hk.
    + intros H. right. apply IH. exact H.
Qed.

Lemma get_not_in_keys {V : Type} (d : Dict.t V) (k : string) :
  ~ In k (Dict.keys d) -> Dict.get d k = None.
Proof.
  intros H. destruct (Dict.get d k) as [v|] eqn:Hg; [|reflexivity].
  exfalso. apply H. exact (get_in_keys _ _ _ Hg).
Qed.

(** [d[k] = v] and then [d[k]] gives [v]. *)
Lemma get_set_same {V : Type} (d : Dict.t V) (k : string) (v : V) :
  Dict.get (Dict.set d k v) k = Some v.
Proof.
  induction d as [|[k' v'] d IH]; cbn [Dict.set Dict.get].
  - rewrite String.eqb_refl. reflexivity.
  - destruct (String.eqb k k') eqn:Hk; cbn [Dict.get]; rewrite Hk.
    + reflexivity.
    + exact IH.
Qed.

(** [d[k] = v] leaves the other keys as they are. *)
Lemma get_set_other {V : Type} (d : Dict.t V) (k k' : string) (v : V) :
  k' <> k -> Dict.get (Dict.set d k v) k' = Dict.get d k'.
Proof.
  intros Hne. induction d as [|[k0 v0] d IH]; cbn [Dict.set Dict.get].
  - apply String.eqb_neq in Hne. rewrite Hne. reflexivity.
  - destruct (String.eqb k k0) eqn:Hk; cbn [Dict.get].
    + apply String.eqb_eq in Hk. subst k0.
      apply String.eqb_neq in Hne. rewrite Hne. reflexivity.
    + destruct (String.eqb k' k0); [reflexivity|exact IH].
Qed.

(** A new key goes last; a known key keeps the keys as they are. *)
Lemma keys_set_new {V : Type} (d : Dict.t V) (k : string) (v : V) :
  ~ In k (Dict.keys d) ->
  Dict.keys (Dict.set d k v) = List.app (Dict.keys d) [k].
Proof.
  induction d as [|[k' v'] d IH]; cbn [Dict.set Dict.keys List.map fst List.app];
    intros H.
  - reflexivity.
  - destruct (String.eqb k k') eqn:Hk.
    + apply String.eqb_eq in Hk. exfalso. apply H. left. symmetry. exact Hk.
    + cbn [List.map fst]. f_equal. apply IH. intros Hin. apply H. right.
      exact Hin.
Qed.

Lemma keys_set_known {V : Type} (d : Dict.t V) (k : string) (v : V) :
  In k (Dict.keys d) -> Dict.keys (Dict.set d k v) = Dict.keys d.
Proof.
  induction d as [|[k' v'] d IH]; cbn [Dict.set Dict.keys List.map fst];
    intros H.
  - contradiction.
  - destruct (String.eqb k k') eqn:Hk; cbn [List.map fst]; [reflexivity|].
    f_equal. apply IH. destruct H as [H|H]; [|exact H].
    subst k'. rewrite String.eqb_refl in Hk. discriminate.
Qed.

Lemma keys_set_nodup {V : Type} (d : Dict.t V) (k : string) (v : V) :
  NoDup (Dict.keys d) -> NoDup (Dict.keys (Dict.set d k v)).
Proof.
  intros H. destruct (in_dec string_dec k (Dict.keys d)) as [Hin|Hout].
  - rewrite (keys_set_known _ _ _ Hin). exact H.
  - rewrite (keys_set_new _ _ _ Hout).
    apply NoDup_app; [exact H|repeat constructor; intros []|].
    intros x Hx [Hk|[]]. subst x. contradiction.
Qed.

(** An object read by [json.loads] has no key twice. *)
Lemma of_pairs_nodup {V : Type} (l : list (string * V)) :
  forall acc : Dict.t V,
    NoDup (Dict.keys acc) ->
    NoDup (Dict.keys (fold_left (fun d kv => Dict.set d (fst kv) (snd kv))
                                l acc)).
Proof.
  induction l as [|[k v] l IH]; intros acc H; cbn [fold_left fst snd].
  - exact H.
  - apply IH. apply keys_set_nodup. exact H.
Qed.

Lemma loads_nodup (j : json) (d : list (string * pyval)) :
  Json.loads j = PyDict d -> NoDup (Dict.keys d).
Proof.
  destruct j; cbn [Json.loads]; try discriminate.
  intros H. inversion H. unfold Dict.of_pairs. apply of_pairs_nodup.
  constructor.
Qed.

(** ** The tags follow the body *)

Lemma collect_tags_follow (items : list (string * pyval)) :
  forall acc tags : Dict.t Tag.t,
    NoDup (List.app (Dict.keys acc) (Dict.keys items)) ->
    collect_tags items acc = Ok tags ->
    Dict.keys tags = List.app (Dict.keys acc) (Dict.keys items)
    /\ (forall (k : string) (tag : Tag.t),
           Dict.get acc k = Some tag -> Dict.get tags k = Some tag)
    /\ (forall (k : string) (data : pyval),
           Dict.get items k = Some data ->
           exists tag : Tag.t,
             tag_of_data data = Ok tag /\ Dict.get tags k = Some tag).
Proof.
  induction items as [|[mac data] items IH]; intros acc tags Hnd.
  - cbn [collect_tags]. intros H. inversion H. subst.
    cbn [Dict.keys List.map]. rewrite List.app_nil_r. repeat split.
    + auto.
    + intros k d Hk. discriminate.
  - cbn [collect_tags]. unfold rbind.
    destruct (tag_of_data data) as [tag|e] eqn:Ht; [|discriminate].
    intros Hc.
    assert (Hnew : ~ In mac (Dict.keys acc)).
    { intros Hin. cbn [Dict.keys List.map fst] in Hnd.
      apply NoDup_remove_2 in Hnd. apply Hnd. apply in_or_app. left.
      exact Hin. }
    assert (Hnd' : NoDup (List.app (Dict.keys (Dict.set acc mac tag))
                                   (Dict.keys items))).
    { rewrite (keys_set_new _ _ _ Hnew), <- List.app_assoc. exact Hnd. }
    destruct (IH _ _ Hnd' Hc) as [Hkeys [Hacc Hitems]].
    repeat split.
    + rewrite Hkeys, (keys_set_new _ _ _ Hnew), <- List.app_assoc. reflexivity.
    + intros k t Hk. apply Hacc. rewrite get_set_other; [exact Hk|].
      intros ->. apply Hnew. exact (get_in_keys _ _ _ Hk).
    + intros k d. cbn [Dict.get]. destruct (String.eqb k mac) eqn:Hk.
      * apply String.eqb_eq in Hk. subst k. intros H. inversion H. subst d.
        exists tag. split; [exact Ht|]. apply Hacc. apply get_set_same.
      * apply Hitems.
Qed.

(** When [fetch_tags] reads a body, the TagSet has the keys of the JSON
    object in the order of the object, no key twice; under each key is the
    [Tag] made of the fields of that entry, and a key that the object does
    not have is not in the TagSet. *)
Theorem fetched_tags_follow_body (j : json) (d : list (string * pyval))
        (tags : Dict.t Tag.t) :
  Json.loads j = PyDict d ->
  decode_body (Some j) = Ok tags ->
  Dict.keys tags = Dict.keys d
  /\ NoDup (Dict.keys tags)
  /\ (forall (k : string) (data : pyval),
         Dict.get d k = Some data ->
         exists tag : Tag.t,
           tag_of_data data = Ok tag /\ Dict.get tags k = Some tag)
  /\ (forall k : string, Dict.get d k = None -> Dict.get tags k = None).
Proof.
  intros Hl Hd. pose proof (loads_nodup _ _ Hl) as Hnd.
  unfold decode_body in Hd. rewrite Hl in Hd. cbn [rbind] in Hd.
  destruct (collect_tags_follow d [] tags Hnd Hd) as [Hkeys [_ Hitems]].
  cbn [Dict.keys List.map List.app] in Hkeys. fold (Dict.keys d) in Hkeys.
  repeat split.
  - exact Hkeys.
  - rewrite Hkeys. exact Hnd.
  - exact Hitems.
  - intros k Hk. apply get_not_in_keys. rewrite Hkeys. intros Hin.
    clear - Hk Hin. induction d as [|[k' v'] d IH]; [contradiction|].
    cbn [Dict.get] in Hk. cbn [Dict.keys List.map fst] in Hin.
    destruct (String.eqb k k') eqn:He; [discriminate|].
    destruct Hin as [Hin|Hin].
    + subst k'. rewrite String.eqb_refl in He. discriminate.
    + exact (IH Hk Hin).
Qed.

Lemma fetched_tags_follow_body_witness :
  Dict.keys (tags_of two_tags) = ["AA:BB:CC:DD:EE:FF"; "11:22:33:44:55:66"]
  /\ NoDup (Dict.keys (tags_of two_tags))
  /\ (forall (k : string) (data : pyval),
         Dict.get [("AA:BB:CC:DD:EE:FF", Json.loads sauna);
                   ("11:22:33:44:55:66", Json.loads attic)] k = Some data ->
         exists tag : Tag.t,
           tag_of_data data = Ok tag /\ Dict.get (tags_of two_tags) k = Some tag)
  /\ (forall k : string,
         Dict.get [("AA:BB:CC:DD:EE:FF", Json.loads sauna);
                   ("11:22:33:44:55:66", Json.loads attic)] k = None ->
         Dict.get (tags_of two_tags) k = None).
Proof.
  apply (fetched_tags_follow_body
           two_tags
           [("AA:BB:CC:DD:EE:FF", Json.loads sauna);
            ("11:22:33:44:55:66", Json.loads attic)]
           (tags_of two_tags)).
  - reflexivity.
  - vm_compute. reflexivity.
Defined.

(** ** Without [--show] *)

(** In the waybar format, with no MAC stored (no [--show], or an empty
    one) and a TagSet that is not empty, the tag shown is the first one:
    when every record has a display string, the object written has the
    display string and the humidity of the first record, and the lookup
    cannot fail. *)
Theorem first_tag_shown_by_default (parser : ArgparseFaux)
        (args : Arguments.t) (k : string) (first : Tag.t)
        (rest : Dict.t Tag.t) (display : string) (displays : list string)
        (p : process) :
  Arguments.format args = None \/ Arguments.format args = Some "waybar" ->
  truthy (Arguments.mac args) = false ->
  Forall2 (fun kv d => Tag.repr (snd kv) = Ok d)
          ((k, first) :: rest) (display :: displays) ->
  Arguments.mac (choose_mac args ((k, first) :: rest)) = Some k
  /\ render parser (choose_mac args ((k, first) :: rest))
            ((k, first) :: rest) p
     = (Ok tt,
        out p (Json.dumps
                 (PyDict [("text", PyStr display);
                          ("tooltip",
                           PyStr (PyStr.join PyStr.nl
                                    (tooltip_of ((k, first) :: rest)
                                                (display :: displays))));
                          ("class", PyStr "ruuvitag");
                          ("percentage", Tag.humidity first)]))).
Proof.
  intros Hf Hm Hall.
  assert (Hc : choose_mac args ((k, first) :: rest) = Arguments.set_mac args k).
  { unfold choose_mac. cbn [Dict.nonempty Dict.first_key]. rewrite Hm.
    reflexivity. }
  rewrite Hc. split; [reflexivity|].
  assert (Hd : Tag.repr first = Ok display).
  { inversion Hall. assumption. }
  assert (Hw : waybar (Arguments.set_mac args k) ((k, first) :: rest) p
               = (Ok tt,
                  out p (Json.dumps
                           (PyDict [("text", PyStr display);
                                    ("tooltip",
                                     PyStr (PyStr.join PyStr.nl
                                              (tooltip_of ((k, first) :: rest)
                                                          (display :: displays))));
                                    ("class", PyStr "ruuvitag");
                                    ("percentage", Tag.humidity first)])))).
  { unfold waybar. cbn [Dict.nonempty]. unfold waybar_object, lookup.
    cbn [Arguments.set_mac Arguments.mac Dict.get].
    rewrite String.eqb_refl. cbn [rbind]. rewrite Hd. cbn [rbind].
    rewrite (tooltip_lines_of _ _ Hall). reflexivity. }
  unfold render, try_except, dispatch.
  cbn [Arguments.set_mac Arguments.format].
  destruct Hf as [Hf|Hf]; rewrite Hf; rewrite ?String.eqb_refl, Hw;
    reflexivity.
Qed.

Lemma first_tag_shown_by_default_witness :
  Arguments.mac (choose_mac (stored [] url)
                            [("AA:BB:CC:DD:EE:FF",
                              tag_at "2020-01-01T00:00:00+00:00")])
  = Some "AA:BB:CC:DD:EE:FF"
  /\ render {| prog := "ruuvitag-form" |}
            (choose_mac (stored [] url)
                        [("AA:BB:CC:DD:EE:FF",
                          tag_at "2020-01-01T00:00:00+00:00")])
            [("AA:BB:CC:DD:EE:FF", tag_at "2020-01-01T00:00:00+00:00")] start
     = (Ok tt,
        out start
            (Json.dumps
               (PyDict [("text", PyStr "21.50C 40.20% 1013.00hPa");
                        ("tooltip", PyStr "Sauna: 21.50C 40.20% 1013.00hPa");
                        ("class", PyStr "ruuvitag");
                        ("percentage",
                         PyFloat (Float.of_decimal false 402 (-1)))]))).
Proof.
  apply (first_tag_shown_by_default
           {| prog := "ruuvitag-form" |} (stored [] url)
           "AA:BB:CC:DD:EE:FF" (tag_at "2020-01-01T00:00:00+00:00") []
           "21.50C 40.20% 1013.00hPa" [] start).
  - left. reflexivity.
  - reflexivity.
  - apply Forall2_cons; [vm_compute; reflexivity|]. apply Forall2_nil.
Defined.

(** ** [--show] in the influxdb format *)

Lemma render_influxdb_any_mac (parser : ArgparseFaux)
      (args args' : Arguments.t) (tags : Dict.t Tag.t) (p : process) :
  Arguments.format args = Some "influxdb" ->
  Arguments.format args' = Some "influxdb" ->
  render parser args tags p = render parser args' tags p.
Proof.
  intros Hf Hf'. unfold render, try_except, dispatch. rewrite Hf, Hf'.
  change (String.eqb "influxdb" "waybar") with false.
  change (String.eqb "influxdb" "influxdb") with true. cbn iota.
  destruct (influxdb tags p) as [r p0] eqn:Hi.
  destruct (influxdb_trace _ _ _ _ Hi) as [_ Hr].
  destruct r as [[]|e]; [reflexivity|].
  destruct e; try contradiction; reflexivity.
Qed.

(** In the influxdb format [--show] changes nothing: two argument vectors
    that [gnu_getopt] accepts without a request for help, with the same
    last positional argument and the format influxdb, give the same run,
    whatever their [--show] options are. *)
Theorem show_ignored_in_influxdb (env : environ) (argv0 : string)
        (rest rest' : list string) (opts opts' : Getopt.options)
        (address address' : list string) (a f f' : string) :
  getopt env rest = Ok (opts, address) ->
  getopt env rest' = Ok (opts', address') ->
  last_item address = Some a ->
  last_item address' = Some a ->
  asks_help opts = false ->
  asks_help opts' = false ->
  requested_format opts = Some f ->
  requested_format opts' = Some f' ->
  PyStr.lower f = "influxdb" ->
  PyStr.lower f' = "influxdb" ->
  run env (argv0 :: rest) start = run env (argv0 :: rest') start.
Proof.
  intros Hg Hg' Ha Ha' Hh Hh' Hf Hf' Hl Hl'.
  pose proof (parse_arguments_returns env argv0 rest opts address a start
                                      Hg Ha Hh) as Hp.
  pose proof (parse_arguments_returns env argv0 rest' opts' address' a start
                                      Hg' Ha' Hh') as Hp'.
  unfold run. rewrite (bind_ok _ _ _ _ _ Hp), (bind_ok _ _ _ _ _ Hp').
  cbn [stored Arguments.address]. unfold bind at 1 3. cbn [ret].
  unfold bind. destruct (fetch_tags env a start) as [[tags|e] p1];
    [|reflexivity].
  apply render_influxdb_any_mac; rewrite choose_mac_format;
    unfold stored; cbn [Arguments.format]; [rewrite Hf|rewrite Hf'];
    cbn [option_map]; congruence.
Qed.

Lemma show_ignored_in_influxdb_witness :
  run (serving two_tags)
      ["ruuvitag-form"; "-F"; "influxdb"; "--show=unknown"; url] start
  = run (serving two_tags) ["ruuvitag-form"; url; "--format=InfluxDB"] start.
Proof.
  exact (show_ignored_in_influxdb
           (serving two_tags) "ruuvitag-form"
           ["-F"; "influxdb"; "--show=unknown"; url]
           [url; "--format=InfluxDB"]
           [("-F", "influxdb"); ("--show", "unknown")]
           [("--format", "InfluxDB")]
           [url] [url] url "influxdb" "InfluxDB"
           eq_refl eq_refl eq_refl eq_refl eq_refl eq_refl eq_refl eq_refl
           eq_refl eq_refl).
Defined.

(** ** Which records have a display string *)

Lemma format_2f_defined (v : pyval) :
  (exists text : string, Py.format_2f v = Ok text) <-> formattable v = true.
Proof.
  destruct v as [|b|n|f|s|l|d]; cbn [Py.format_2f formattable];
    try (split; [intros [text H]; discriminate|discriminate]);
    try (split; [reflexivity|eauto]).
  unfold Py.float_of_int. destruct (Float.is_finite (Float.of_Z n)).
  - split; [reflexivity|eauto].
  - split; [intros [text H]; discriminate|discriminate].
Qed.

(** A record has a display string exactly when its temperature, humidity
    and pressure are each a [float], a [bool], or an [int] within the
    range of [float]: a placeholder string, a null, a list or an object in
    one of the three makes [Tag.__repr__] raise. *)
Theorem display_string_defined (tag : Tag.t) :
  (exists text : string, Tag.repr tag = Ok text)
  <-> formattable (Tag.temperature tag) = true
      /\ formattable (Tag.humidity tag) = true
      /\ formattable (Tag.pressure tag) = true.
Proof.
  unfold Tag.repr. split.
  - intros [text H].
    destruct (Py.format_2f (Tag.temperature tag)) as [t|e] eqn:Ht;
      [|discriminate].
    destruct (Py.format_2f (Tag.humidity tag)) as [h|e] eqn:Hh;
      [|discriminate].
    destruct (Py.format_2f (Tag.pressure tag)) as [q|e] eqn:Hq;
      [|discriminate].
    repeat split; apply format_2f_defined; eauto.
  - intros [Ht [Hh Hq]].
    apply format_2f_defined in Ht, Hh, Hq.
    destruct Ht as [t ->], Hh as [h ->], Hq as [q ->]. cbn [rbind]. eauto.
Qed.

(** ** One record without a display string *)

Lemma tooltip_lines_bad (before : list (string * Tag.t)) (k : string)
      (bad : Tag.t) (after : list (string * Tag.t)) (e : exn) :
  Forall (fun kv => exists d : string, Tag.repr (snd kv) = Ok d) before ->
  Tag.repr bad = Raise e ->
  tooltip_lines (List.app before ((k, bad) :: after)) = Raise e.
Proof.
  intros Hb He. induction Hb as [|[k0 t0] before [d Hd] _ IH].
  - cbn [List.app tooltip_lines]. rewrite He. reflexivity.
  - cbn [snd] in Hd. cbn [List.app tooltip_lines]. rewrite Hd. cbn [rbind].
    rewrite IH. reflexivity.
Qed.

(** In the waybar format the tooltip is built from every record, so one
    record without a display string fails the whole object even when the
    record to show has one: [render] ends in the error of the first such
    record and writes nothing. *)
Theorem bad_record_fails_waybar (parser : ArgparseFaux) (args : Arguments.t)
        (m display k : string) (shown bad : Tag.t)
        (before after : list (string * Tag.t)) (e : exn) (p : process) :
  Arguments.format args = None \/ Arguments.format args = Some "waybar" ->
  Arguments.mac args = Some m ->
  Dict.get (List.app before ((k, bad) :: after)) m = Some shown ->
  Tag.repr shown = Ok display ->
  Forall (fun kv => exists d : string, Tag.repr (snd kv) = Ok d) before ->
  Tag.repr bad = Raise e ->
  render parser args (List.app before ((k, bad) :: after)) p = (Raise e, p).
Proof.
  intros Hf Hm Hget Hd Hb He.
  assert (Hw : waybar args (List.app before ((k, bad) :: after)) p
               = (Raise e, p)).
  { unfold waybar.
    assert (Hne : Dict.nonempty (List.app before ((k, bad) :: after)) = true)
      by (destruct before; reflexivity).
    rewrite Hne. unfold waybar_object, lookup, bind, lift.
    rewrite Hm, Hget. cbn [rbind]. rewrite Hd. cbn [rbind].
    rewrite (tooltip_lines_bad _ _ _ _ _ Hb He). reflexivity. }
  pose proof (repr_raises _ _ He) as Hfe.
  unfold render, try_except, dispatch.
  destruct Hf as [Hf|Hf]; rewrite Hf; rewrite ?String.eqb_refl, Hw;
    destruct e; try contradiction; reflexivity.
Qed.

Lemma bad_record_fails_waybar_witness :
  render {| prog := "ruuvitag-form" |}
         (stored [("--show", "aa:bb:cc:dd:ee:ff")] url)
         [("AA:BB:CC:DD:EE:FF", tag_at "2020-01-01T00:00:00+00:00");
          ("11:22:33:44:55:66", Tag.default)] start
  = (Raise ValueError, start).
Proof.
  apply (bad_record_fails_waybar
           {| prog := "ruuvitag-form" |}
           (stored [("--show", "aa:bb:cc:dd:ee:ff")] url)
           "AA:BB:CC:DD:EE:FF" "21.50C 40.20% 1013.00hPa" "11:22:33:44:55:66"
           (tag_at "2020-01-01T00:00:00+00:00") Tag.default
           [("AA:BB:CC:DD:EE:FF", tag_at "2020-01-01T00:00:00+00:00")] []
           ValueError start).
  - left. reflexivity.
  - reflexivity.
  - reflexivity.
  - vm_compute. reflexivity.
  - apply Forall_cons; [|apply Forall_nil].
    exists "21.50C 40.20% 1013.00hPa". vm_compute. reflexivity.
  - reflexivity.
Defined.

(** ** Upper case *)

Lemma upper_char_not_lower (c : ascii) :
  is_lower_letter (PyStr.upper_char c) = false.
Proof.
  destruct c as [[|] [|] [|] [|] [|] [|] [|] [|]]; reflexivity.
Qed.

Lemma upper_has_no_lower (s : string) : has_lower (PyStr.upper s) = false.
Proof.
  induction s as [|c s IH]; [reflexivity|].
  change (PyStr.upper (String c s))
    with (String (PyStr.upper_char c) (PyStr.upper s)).
  cbn [has_lower]. rewrite upper_char_not_lower, IH. reflexivity.
Qed.

(** [--show] stores its value in upper case, so a key that holds a
    lower-case letter is never the stored MAC: whatever the arguments, a
    tag under such a key cannot be selected with [--show]. *)
Theorem lowercase_key_never_selected (env : environ) (argv : list string)
        (parser : ArgparseFaux) (args : Arguments.t) (p p' : process)
        (k : string) :
  parse_arguments env argv p = (Ok (parser, args), p') ->
  has_lower k = true ->
  Arguments.mac args <> Some k.
Proof.
  intros Hp Hk Hm. destruct argv as [|argv0 rest]; [discriminate|].
  destruct (parse_arguments_cases env argv0 rest p)
    as [[opts [address [a [_ [_ [_ Hp']]]]]]
       |[[opts [address [_ [_ [_ Hp']]]]]|[msg Hp']]];
    rewrite Hp' in Hp; try discriminate.
  inversion Hp. subst args. unfold stored in Hm. cbn [Arguments.mac] in Hm.
  destruct (shown opts) as [v|]; [|discriminate].
  cbn [option_map] in Hm. inversion Hm. subst k.
  rewrite upper_has_no_lower in Hk. discriminate.
Qed.

Lemma lowercase_key_never_selected_witness :
  Arguments.mac (stored [("--show", "aa:bb:cc:dd:ee:ff")] url)
  <> Some "aa:bb:cc:dd:ee:ff".
Proof.
  apply (lowercase_key_never_selected
           offline ["ruuvitag-form"; "--show=aa:bb:cc:dd:ee:ff"; url]
           {| prog := "ruuvitag-form" |}
           (stored [("--show", "aa:bb:cc:dd:ee:ff")] url) start start
           "aa:bb:cc:dd:ee:ff").
  - reflexivity.
  - reflexivity.
Defined.


(** ** Spelling the options *)

Lemma prefix_cons_inv (p : string) (c : ascii) (s : string) :
  String.prefix p (String c s) = true ->
  p = "" \/ exists p' : string, p = String c p' /\ String.prefix p' s = true.
Proof.
  destruct p as [|a p]; [left; reflexivity|]. cbn [String.prefix].
  destruct (ascii_dec a c) as [->|]; [|discriminate].
  intros H. right. exists p. split; [reflexivity|exact H].
Qed.

Lemma prefix_nil_inv (p : string) : String.prefix p "" = true -> p = "".
Proof. destruct p; [reflexivity|discriminate]. Qed.

Ltac enumerate_prefixes H :=
  repeat (apply prefix_cons_inv in H; destruct H as [->|[? [-> H]]]);
  try (apply prefix_nil_inv in H; subst).

(** The three long options begin with different letters, so every
    abbreviation of one of them, down to its first letter, is accepted and
    means that option. *)
Theorem long_option_abbreviations (opt name : string) :
  In name ["help"; "format"; "show"] ->
  opt <> "" ->
  String.prefix opt name = true ->
  Getopt.long_has_args opt ["help"; "format="; "show="]
  = Ok (negb (String.eqb name "help"), name).
Proof.
  intros [<-|[<-|[<-|[]]]] Hne H; enumerate_prefixes H;
    try contradiction; reflexivity.
Qed.

Lemma long_option_abbreviations_witness :
  Getopt.long_has_args "for" ["help"; "format="; "show="] = Ok (true, "format").
Proof.
  apply (long_option_abbreviations "for" "format").
  - right. left. reflexivity.
  - discriminate.
  - reflexivity.
Defined.

Lemma positional_not_option (a : string) :
  PyStr.startswith a "-" = false ->
  String.eqb a "--" = false /\ PyStr.startswith a "--" = false.
Proof.
  unfold PyStr.startswith. destruct a as [|c a]; [split; reflexivity|].
  cbn [String.prefix]. destruct (ascii_dec "-" c) as [<-|Hc].
  - destruct a; discriminate.
  - intros _. split.
    + cbn [String.eqb]. destruct (Ascii.eqb_spec c "-"); [|reflexivity].
      subst c. contradiction.
    + reflexivity.
Qed.

(** The format can be given as [-F v], [-Fv], [--format v] or
    [--format=v], before the address or (unless POSIXLY_CORRECT is set)
    after it: [parse_arguments] stores the same. *)
Theorem format_spellings (env : environ) (argv0 v a : string) (p : process) :
  PyStr.startswith a "-" = false ->
  v <> "" ->
  let expected :=
    (Ok ({| prog := PyStr.basename argv0 |},
         {| Arguments.format := Some (PyStr.lower v);
            Arguments.mac := None;
            Arguments.address := Some a |}), p) in
  parse_arguments env [argv0; "-F"; v; a] p = expected
  /\ parse_arguments env [argv0; "-F" ++ v; a] p = expected
  /\ parse_arguments env [argv0; "--format"; v; a] p = expected
  /\ parse_arguments env [argv0; "--format=" ++ v; a] p = expected
  /\ (posixly_correct env = false ->
      parse_arguments env [argv0; a; "-F"; v] p = expected
      /\ parse_arguments env [argv0; a; "--format=" ++ v] p = expected).
Proof.
  intros Ha Hv expected.
  destruct (positional_not_option a Ha) as [H1 H2].
  assert (Hve : String.eqb v "" = false) by (apply String.eqb_neq; exact Hv).
  assert (Hshort : forall rest opts address,
             getopt env rest = Ok (opts, address) ->
             opts = [("-F", v)] -> address = [a] ->
             parse_arguments env (argv0 :: rest) p = expected).
  { intros rest opts address Hg -> ->.
    exact (parse_arguments_returns env argv0 rest _ _ a p Hg eq_refl eq_refl). }
  assert (Hlong : forall rest opts address,
             getopt env rest = Ok (opts, address) ->
             opts = [("--format", v)] -> address = [a] ->
             parse_arguments env (argv0 :: rest) p = expected).
  { intros rest opts address Hg -> ->.
    exact (parse_arguments_returns env argv0 rest _ _ a p Hg eq_refl eq_refl). }
  repeat split.
  - eapply Hshort; [|reflexivity|reflexivity].
    unfold getopt, Getopt.gnu_getopt. cbn.
    destruct (posixly_correct env); cbn; rewrite H1, H2, Ha; reflexivity.
  - eapply Hshort; [|reflexivity|reflexivity].
    unfold getopt, Getopt.gnu_getopt. cbn.
    destruct (posixly_correct env); cbn; rewrite Hve; cbn;
      rewrite H1, H2, Ha; reflexivity.
  - eapply Hlong; [|reflexivity|reflexivity].
    unfold getopt, Getopt.gnu_getopt. cbn.
    destruct (posixly_correct env); cbn; rewrite H1, H2, Ha; reflexivity.
  - eapply Hlong; [|reflexivity|reflexivity].
    unfold getopt, Getopt.gnu_getopt. cbn.
    destruct (posixly_correct env); cbn; rewrite H1, H2, Ha; reflexivity.
  - eapply Hshort; [|reflexivity|reflexivity].
    unfold getopt, Getopt.gnu_getopt. rewrite H. cbn.
    rewrite H1, H2, Ha. reflexivity.
  - eapply Hlong; [|reflexivity|reflexivity].
    unfold getopt, Getopt.gnu_getopt. rewrite H. cbn.
    rewrite H1, H2, Ha. reflexivity.
Qed.

Lemma format_spellings_witness :
  parse_arguments offline ["ruuvitag-form"; "-FInfluxDB"; url] start
  = (Ok ({| prog := "ruuvitag-form" |},
         {| Arguments.format := Some "influxdb";
            Arguments.mac := None;
            Arguments.address := Some url |}), start)
  /\ parse_arguments offline ["ruuvitag-form"; url; "--format=InfluxDB"] start
     = (Ok ({| prog := "ruuvitag-form" |},
            {| Arguments.format := Some "influxdb";
               Arguments.mac := None;
               Arguments.address := Some url |}), start).
Proof.
  destruct (format_spellings offline "ruuvitag-form" "InfluxDB" url start
                             eq_refl ltac:(discriminate))
    as [_ [H2 [_ [_ H5]]]].
  split; [exact H2|]. exact (proj2 (H5 eq_refl)).
Defined.

(** With POSIXLY_CORRECT set, [gnu_getopt] stops at the first positional
    argument: what follows it is positional too, options included, so no
    option is stored and the address is the last argument of all. *)
Theorem posixly_correct_stops_options (env : environ) (argv0 a : string)
        (others : list string) (last : string) (p : process) :
  posixly_correct env = true ->
  PyStr.startswith a "-" = false ->
  last_item (a :: others) = Some last ->
  parse_arguments env (argv0 :: a :: others) p
  = (Ok ({| prog := PyStr.basename argv0 |},
         {| Arguments.format := None;
            Arguments.mac := None;
            Arguments.address := Some last |}), p).
Proof.
  intros Hposix Ha Hlast.
  destruct (positional_not_option a Ha) as [H1 H2].
  assert (Hg : getopt env (a :: others) = Ok ([], a :: others)).
  { unfold getopt, Getopt.gnu_getopt. rewrite Hposix.
    change (PyStr.startswith "hF:" "+") with false. cbv iota.
    cbn [Getopt.scan List.length]. rewrite H1, H2, Ha. reflexivity. }
  exact (parse_arguments_returns env argv0 (a :: others) [] (a :: others)
                                 last p Hg Hlast eq_refl).
Qed.

Lemma posixly_correct_stops_options_witness :
  parse_arguments {| posixly_correct := true;
                     http_get := fun _ => TransportError refused |}
                  ["ruuvitag-form"; url; "--format"; "influxdb"] start
  = (Ok ({| prog := "ruuvitag-form" |},
         {| Arguments.format := None;
            Arguments.mac := None;
            Arguments.address := Some "influxdb" |}), start).
Proof.
  exact (posixly_correct_stops_options
           {| posixly_correct := true;
              http_get := fun _ => TransportError refused |}
           "ruuvitag-form" url ["--format"; "influxdb"] "influxdb" start
           eq_refl eq_refl eq_refl).
Defined.

(** ** What [json.dump] writes is printable *)

Lemma all_printable_app (a b : string) :
  all_printable (a ++ b) = all_printable a && all_printable b.
Proof.
  induction a as [|c a IH]; [reflexivity|].
  cbn [String.append all_printable]. rewrite IH, andb_assoc. reflexivity.
Qed.

Lemma all_printable_list (s : string) :
  all_printable s = forallb printable (list_ascii_of_string s).
Proof.
  induction s as [|c s IH]; [reflexivity|].
  cbn [all_printable list_ascii_of_string forallb]. rewrite IH. reflexivity.
Qed.

Lemma digit_printable (c : ascii) :
  PyStr.is_digit c = true -> printable c = true.
Proof.
  unfold PyStr.is_digit, printable. cbv zeta.
  rewrite !andb_true_iff, !Nat.leb_le. lia.
Qed.

Lemma all_digits_printable (s : string) :
  all_digits s = true -> all_printable s = true.
Proof.
  induction s as [|c s IH]; [reflexivity|].
  cbn [all_digits all_printable]. rewrite !andb_true_iff.
  intros [Hc Hs]. split; [apply digit_printable; exact Hc|apply IH; exact Hs].
Qed.

Lemma string_of_uint_digits (d : Decimal.uint) :
  all_digits (NilEmpty.string_of_uint d) = true.
Proof. induction d; cbn; try assumption; reflexivity. Qed.

Lemma of_Z_printable (z : Z) : all_printable (PyStr.of_Z z) = true.
Proof.
  unfold PyStr.of_Z, NilZero.string_of_int, NilZero.string_of_uint.
  destruct (Z.to_int z) as [d|d].
  - destruct d; try reflexivity;
      apply all_digits_printable; apply string_of_uint_digits.
  - cbn [all_printable]. change (printable "-") with true. cbv iota.
    cbn [andb].
    destruct d; try reflexivity;
      apply all_digits_printable; apply string_of_uint_digits.
Qed.

Lemma two_digits_printable (z : Z) :
  all_printable (PyStr.two_digits z) = true.
Proof.
  unfold PyStr.two_digits. destruct (z <? 10).
  - rewrite all_printable_app, of_Z_printable. reflexivity.
  - apply of_Z_printable.
Qed.

Lemma repeat_zero_printable (n : nat) :
  all_printable (PyStr.repeat "0" n) = true.
Proof. induction n as [|n IH]; [reflexivity|]. cbn. exact IH. Qed.

Lemma take_printable (n : nat) (s : string) :
  all_printable s = true -> all_printable (PyStr.take n s) = true.
Proof.
  revert s. induction n as [|n IH]; intros [|c s]; try reflexivity.
  cbn [PyStr.take all_printable]. rewrite !andb_true_iff.
  intros [Hc Hs]. split; [exact Hc|apply IH; exact Hs].
Qed.

Lemma drop_printable (n : nat) (s : string) :
  all_printable s = true -> all_printable (PyStr.drop n s) = true.
Proof.
  revert s. induction n as [|n IH]; intros [|c s]; try reflexivity;
    cbn [PyStr.drop]; try (intros H; exact H).
  cbn [all_printable]. rewrite andb_true_iff. intros [_ Hs]. apply IH, Hs.
Qed.

Lemma strip_zeros_rev_incl (l : list ascii) (c : ascii) :
  In c (Float.strip_zeros_rev l) -> In c l.
Proof.
  induction l as [|a l IH]; [intros []|].
  cbn [Float.strip_zeros_rev].
  destruct a as [[] [] [] [] [] [] [] []]; try (intros H; exact H).
  intros H. right. apply IH, H.
Qed.

Lemma rstrip_zeros_printable (s : string) :
  all_printable s = true -> all_printable (Float.rstrip_zeros s) = true.
Proof.
  unfold Float.rstrip_zeros.
  rewrite !all_printable_list, list_ascii_of_string_of_list_ascii.
  rewrite !forallb_forall. intros H c Hc.
  apply H. apply (proj2 (in_rev _ c)).
  apply strip_zeros_rev_incl. apply (proj2 (in_rev _ c)). exact Hc.
Qed.

Lemma layout_printable (digits : string) (pt : Z) :
  all_printable digits = true ->
  all_printable (Float.layout digits pt) = true.
Proof.
  intros H. unfold Float.layout. cbv zeta.
  destruct ((pt <=? -4) || (16 <? pt)).
  - rewrite !all_printable_app, two_digits_printable.
    assert (Hm : all_printable
                   match digits with
                   | String c EmptyString => digits
                   | String c rest => String c ("." ++ rest)
                   | EmptyString => digits
                   end = true).
    { destruct digits as [|c [|c' rest]]; exact H. }
    rewrite Hm. destruct (pt - 1 <? 0); reflexivity.
  - destruct (pt <=? 0).
    + rewrite !all_printable_app, repeat_zero_printable, H. reflexivity.
    + destruct (Z.of_nat (String.length digits) <=? pt).
      * rewrite !all_printable_app, repeat_zero_printable, H. reflexivity.
      * rewrite !all_printable_app, take_printable, drop_printable by exact H.
        reflexivity.
Qed.

Lemma sign_str_printable (s : bool) :
  all_printable (Float.sign_str s) = true.
Proof. destruct s; reflexivity. Qed.

Lemma float_repr_printable (f : spec_float) :
  all_printable (Float.repr f) = true.
Proof.
  destruct f as [s|s| |s m e]; try (destruct s; reflexivity); try reflexivity.
  unfold Float.repr.
  destruct (Float.magnitude m e) as [n d].
  cbv zeta.
  destruct (Float.shortest 17 (S754_finite false m e) n d (Float.decpt n d) 1)
    as [c scale].
  rewrite all_printable_app, sign_str_printable.
  apply layout_printable, rstrip_zeros_printable, of_Z_printable.
Qed.

Lemma encode_float_printable (f : spec_float) :
  all_printable (Json.encode_float f) = true.
Proof.
  destruct f as [s|s| |s m e]; try (destruct s; reflexivity); try reflexivity.
  apply (float_repr_printable (S754_finite s m e)).
Qed.

Lemma encode_char_printable (c : ascii) :
  all_printable (Json.encode_char c) = true.
Proof. destruct c as [[] [] [] [] [] [] [] []]; vm_compute; reflexivity. Qed.

Lemma encode_str_printable (s : string) :
  all_printable (Json.encode_str s) = true.
Proof.
  unfold Json.encode_str. rewrite !all_printable_app.
  change (all_printable PyStr.dquote) with true.
  rewrite andb_true_r. cbn [andb].
  induction s as [|c s IH]; [reflexivity|].
  cbn [Py.concat_map]. rewrite all_printable_app, encode_char_printable, IH.
  reflexivity.
Qed.

Lemma join_printable (l : list string) :
  Forall (fun s => all_printable s = true) l ->
  all_printable (PyStr.join ", " l) = true.
Proof.
  induction 1 as [|x l Hx Hl IH]; [reflexivity|].
  cbn [PyStr.join]. destruct l as [|y l]; [exact Hx|].
  rewrite !all_printable_app, Hx, IH. reflexivity.
Qed.

Lemma dumps_printable (v : pyval) : all_printable (Json.dumps v) = true.
Proof.
  revert v. fix IH 1. intros [ |b|z|f|s|l|d].
  - reflexivity.
  - destruct b; reflexivity.
  - apply of_Z_printable.
  - apply encode_float_printable.
  - apply encode_str_printable.
  - cbn [Json.dumps]. rewrite !all_printable_app, join_printable;
      [reflexivity|].
    induction l as [|x l IHl]; constructor; [apply IH|exact IHl].
  - cbn [Json.dumps]. rewrite !all_printable_app, join_printable;
      [reflexivity|].
    induction d as [|[k x] d IHd]; constructor; [|exact IHd].
    rewrite !all_printable_app, encode_str_printable, IH. reflexivity.
Qed.

(** In the waybar format, whatever [render] adds to standard output is
    printable ASCII: [json.dump] escapes the line feeds of the tooltip, the
    quotes and every other character outside the printable range, so the
    object is on one line, without a line feed at its end, and a run that
    fails adds nothing. *)
Theorem waybar_output_one_line (parser : ArgparseFaux) (args : Arguments.t)
        (tags : Dict.t Tag.t) (p p' : process) (r : result unit) :
  Arguments.format args = None \/ Arguments.format args = Some "waybar" ->
  render parser args tags p = (r, p') ->
  exists text : string,
    stdout p' = stdout p ++ text /\ all_printable text = true.
Proof.
  intros Hf.
  assert (Hw : forall q q' r',
             waybar args tags q = (r', q') ->
             exists text : string,
               stdout q' = stdout q ++ text /\ all_printable text = true).
  { intros q q' r'. unfold waybar, bind, lift, write.
    destruct (Dict.nonempty tags).
    - destruct (waybar_object args tags) as [obj|e]; intros H; inversion H.
      + exists (Json.dumps obj). split; [reflexivity|apply dumps_printable].
      + exists "". rewrite append_empty. split; reflexivity.
    - destruct waybar_fallback as [obj|e]; intros H; inversion H.
      + exists (Json.dumps obj). split; [reflexivity|apply dumps_printable].
      + exists "". rewrite append_empty. split; reflexivity. }
  unfold render, try_except.
  assert (Hd : dispatch parser args tags = waybar args tags).
  { unfold dispatch. destruct Hf as [-> | ->]; reflexivity. }
  rewrite Hd.
  destruct (waybar args tags p) as [[u|e] q] eqn:Hq.
  - intros H. inversion H. subst. exact (Hw _ _ _ Hq).
  - destruct (Hw _ _ _ Hq) as [text [Hs Ht]].
    destruct e; intros H; inversion H; subst;
      exists text; split; try exact Ht; try exact Hs.
Qed.

Lemma waybar_output_one_line_witness :
  all_printable
    (stdout (snd (render {| prog := "ruuvitag-form" |}
                         (choose_mac (stored [] url) (tags_of two_tags))
                         (tags_of two_tags) start))) = true.
Proof.
  destruct (waybar_output_one_line
              {| prog := "ruuvitag-form" |}
              (choose_mac (stored [] url) (tags_of two_tags))
              (tags_of two_tags) start
              (snd (render {| prog := "ruuvitag-form" |}
                           (choose_mac (stored [] url) (tags_of two_tags))
                           (tags_of two_tags) start))
              (fst (render {| prog := "ruuvitag-form" |}
                           (choose_mac (stored [] url) (tags_of two_tags))
                           (tags_of two_tags) start))
              (or_introl eq_refl)
              (surjective_pairing _))
    as [text [Hs Ht]].
  rewrite Hs. exact Ht.
Defined.

(** ** The shape of the display string *)

Lemma of_Z_digits (z : Z) :
  0 <= z -> PyStr.of_Z z <> "" /\ all_digits (PyStr.of_Z z) = true.
Proof.
  intros Hz. unfold PyStr.of_Z, NilZero.string_of_int, NilZero.string_of_uint.
  destruct z as [|q|q]; [split; [discriminate|reflexivity]| |lia].
  cbn [Z.to_int]. pose proof (DecimalPos.Unsigned.to_uint_nonnil q) as Hn.
  destruct (Pos.to_uint q) as [|d|d|d|d|d|d|d|d|d|d] eqn:Hq;
    try contradiction;
    (split; [discriminate|]);
    rewrite <- Hq; apply string_of_uint_digits.
Qed.

Lemma two_digits_below_100 (n : nat) :
  (n < 100)%nat ->
  String.length (PyStr.two_digits (Z.of_nat n)) = 2%nat
  /\ all_digits (PyStr.two_digits (Z.of_nat n)) = true.
Proof.
  intros Hn.
  assert (Hall : forallb
                   (fun k => (String.length (PyStr.two_digits (Z.of_nat k))
                              =? 2)%nat
                             && all_digits (PyStr.two_digits (Z.of_nat k)))
                   (seq 0 100) = true) by (vm_compute; reflexivity).
  rewrite forallb_forall in Hall.
  specialize (Hall n ltac:(apply in_seq; lia)).
  apply andb_true_iff in Hall. destruct Hall as [Hl Hd].
  apply Nat.eqb_eq in Hl. split; assumption.
Qed.

Lemma fixed2_shape (s : bool) (q : Z) :
  0 <= q -> fixed_point_text (Float.fixed2 s q).
Proof.
  intros Hq. unfold Float.fixed2.
  exists (Float.sign_str s), (PyStr.of_Z (q / 100)),
         (PyStr.two_digits (q mod 100)).
  destruct (of_Z_digits (q / 100) ltac:(apply Z.div_pos; lia)) as [Hne Hd].
  pose proof (Z.mod_pos_bound q 100 ltac:(lia)) as Hm.
  destruct (two_digits_below_100 (Z.to_nat (q mod 100)) ltac:(lia))
    as [Hl Hf].
  rewrite Z2Nat.id in Hl, Hf by lia.
  repeat split; try assumption.
  destruct s; [right|left]; reflexivity.
Qed.

Lemma float_format_2f_shape (f : spec_float) :
  decimal_text (Float.format_2f f).
Proof.
  destruct f as [s|s| |s m e]; cbn [Float.format_2f].
  - left. apply fixed2_shape. lia.
  - right. destruct s; cbn; tauto.
  - right. cbn. tauto.
  - left. apply fixed2_shape. exact (proj1 (hundredths_nearest m e)).
Qed.

Lemma format_2f_shape (v : pyval) (text : string) :
  Py.format_2f v = Ok text -> decimal_text text.
Proof.
  destruct v as [|b|n|f|s|l|d]; cbn [Py.format_2f]; try discriminate.
  - intros H. inversion H. apply float_format_2f_shape.
  - unfold Py.float_of_int. destruct (Float.is_finite (Float.of_Z n));
      [|discriminate].
    intros H. inversion H. apply float_format_2f_shape.
  - intros H. inversion H. apply float_format_2f_shape.
Qed.

(** Whenever a record has a display string, it is three texts followed by
    [C ], [% ] and [hPa], and each text is a number with exactly two
    decimal digits after the point and one digit at least before it (or
    the name of an infinity or a NaN): never exponent notation, never a
    missing or a third decimal. *)
Theorem display_string_shape (tag : Tag.t) (display : string) :
  Tag.repr tag = Ok display ->
  exists temp hum pres : string,
    display = temp ++ "C " ++ hum ++ "% " ++ pres ++ "hPa"
    /\ decimal_text temp /\ decimal_text hum /\ decimal_text pres.
Proof.
  unfold Tag.repr.
  destruct (Py.format_2f (Tag.temperature tag)) as [temp|] eqn:Ht;
    [|discriminate].
  destruct (Py.format_2f (Tag.humidity tag)) as [hum|] eqn:Hh;
    [|discriminate].
  destruct (Py.format_2f (Tag.pressure tag)) as [pres|] eqn:Hp;
    [|discriminate].
  cbn [rbind]. intros H. inversion H.
  exists temp, hum, pres. repeat split; eauto using format_2f_shape.
Qed.

Lemma display_string_shape_witness :
  exists temp hum pres : string,
    "21.50C 40.20% 1013.00hPa" = temp ++ "C " ++ hum ++ "% " ++ pres ++ "hPa"
    /\ decimal_text temp /\ decimal_text hum /\ decimal_text pres.
Proof.
  apply (display_string_shape (tag_at "2020-01-01T00:00:00+00:00")).
  vm_compute. reflexivity.
Defined.
